(** * Click-tracking service (Cloud.py): a shallow embedding

    The service has two Flask handlers, [track_click] and
    [get_user_clicks], a field-presence validator [validate_click_data]
    and a wrapper [BigQueryClient.load_data] around the BigQuery SDK.

    Python values are the inductive [pyval]; a JSON object is a
    [gmap string pyval].  Exceptions and effects are explicit: a
    computation is a function from the server state to an [outcome] and
    a new state.  Everything outside the file (the wall clock and the
    BigQuery SDK) is an instance of the class [Platform]; the handlers
    are written once, for every platform.  The state also carries two
    append-only histories, the SDK calls made and the log records
    written, so that "called exactly once" and "only in the log" can be
    stated. *)

From Stdlib Require Import ZArith String List Sorted Permutation.
From stdpp Require Import base gmap strings list sorting pretty.

Open Scope Z_scope.
Open Scope string_scope.
Open Scope list_scope.

(** ** Python values *)

Module Py.

(** The values that reach the handlers: what [request.get_json()] can
    return (None, bool, int, float, str, list, dict) and the naive
    [datetime] of [datetime.utcnow()], as microseconds since the epoch.
    A float is carried by its literal; the program never computes with
    one. *)
#[warnings="-register-all"]
Inductive pyval : Type :=
| PNone
| PBool (b : bool)
| PInt (n : Z)
| PFloat (literal : string)
| PStr (s : string)
| PDatetime (micros : Z)
| PList (items : list pyval)
| PDict (entries : gmap string pyval).

(** An exception object: its class and [str(e)]. *)
Record exn : Type := Exn { exc_class : string; exc_str : string }.

Inductive outcome (A : Type) : Type :=
| Returned (a : A)
| Raised (e : exn).
Arguments Returned {A} a.
Arguments Raised {A} e.

Definition TypeError (msg : string) : exn := Exn "TypeError" msg.
Definition KeyError (key : string) : exn := Exn "KeyError" ("'" +:+ key +:+ "'").

(** [type(v).__name__], as it appears in CPython's TypeError texts. *)
Definition type_name (v : pyval) : string :=
  match v with
  | PNone => "NoneType"
  | PBool _ => "bool"
  | PInt _ => "int"
  | PFloat _ => "float"
  | PStr _ => "str"
  | PDatetime _ => "datetime.datetime"
  | PList _ => "list"
  | PDict _ => "dict"
  end.

(** [needle in haystack] on two str objects: substring test. *)
Fixpoint is_substring (needle haystack : string) : bool :=
  String.prefix needle haystack ||
  match haystack with
  | EmptyString => false
  | String _ rest => is_substring needle rest
  end.

(** [v == key] for a str [key]: only an equal str compares equal. *)
Definition eq_str (v : pyval) (key : string) : bool :=
  match v with
  | PStr s => String.eqb s key
  | _ => false
  end.

(** [key in data] for a str [key]: key membership on a dict, element
    equality on a list, substring on a str, TypeError on anything
    else. *)
Definition contains (data : pyval) (key : string) : outcome bool :=
  match data with
  | PDict d => Returned (bool_decide (is_Some (d !! key)))
  | PList l => Returned (existsb (fun v => eq_str v key) l)
  | PStr s => Returned (is_substring key s)
  | _ => Raised (TypeError ("argument of type '" +:+ type_name data +:+ "' is not iterable"))
  end.

(** [data[key]] for a str [key]. *)
Definition getitem (data : pyval) (key : string) : outcome pyval :=
  match data with
  | PDict d =>
      match d !! key with
      | Some v => Returned v
      | None => Raised (KeyError key)
      end
  | PList _ => Raised (TypeError "list indices must be integers or slices, not str")
  | PStr _ => Raised (TypeError "string indices must be integers, not 'str'")
  | _ => Raised (TypeError ("'" +:+ type_name data +:+ "' object is not subscriptable"))
  end.

End Py.
Export Py.

(** ** The data that crosses the SDK boundary *)

(** A one-line [pd.DataFrame([{...}])]: the rows, each an ordered list of
    (column, cell). *)
Definition DataFrame : Type := list (list (string * pyval)).

Inductive WriteDisposition : Type := WRITE_APPEND | WRITE_TRUNCATE | WRITE_EMPTY.

Record SchemaField : Type := MkSchemaField { field_name : string; field_type : string }.

Record LoadJobConfig : Type := MkLoadJobConfig {
  write_disposition : WriteDisposition;
  schema : list SchemaField
}.

Record ScalarQueryParameter : Type := MkScalarQueryParameter {
  param_name : string;
  param_type : string;
  param_value : string
}.

Record QueryJobConfig : Type := MkQueryJobConfig {
  query_parameters : list ScalarQueryParameter
}.

(** A result row of the aggregate query: [row.tab_name] (a nullable
    STRING) and [row.click_count] (an INT64). *)
Record Row : Type := MkRow { row_tab_name : option string; row_click_count : Z }.

(** ** The platform: wall clock and BigQuery SDK *)

Class Platform (E : Type) : Type := {
  LoadJob : Type;
  QueryJob : Type;
  RowIterator : Type;
  (** [datetime.utcnow()] *)
  utcnow : E -> Z * E;
  (** [client.load_table_from_dataframe(data, table_ref, job_config=...)] *)
  load_table_from_dataframe :
    DataFrame -> string -> LoadJobConfig -> E -> outcome LoadJob * E;
  (** [load_job.result()] *)
  load_job_result : LoadJob -> E -> outcome unit * E;
  (** [client.query(query, job_config=...)] *)
  client_query : string -> QueryJobConfig -> E -> outcome QueryJob * E;
  (** [query_job.result()] *)
  query_job_result : QueryJob -> E -> outcome RowIterator * E;
  (** [for row in results], run to the end *)
  iter_rows : RowIterator -> E -> outcome (list Row) * E
}.

(** ** Server state and the computation monad *)

(** History of calls across the SDK boundary.  [CallLoadData] marks the
    entry into [BigQueryClient.load_data]; the others are the SDK
    operations of [Platform]. *)
Inductive Call : Type :=
| CallUtcnow (reading : Z)
| CallLoadData (data : DataFrame) (dataset_id table_id : string)
| CallLoadTableFromDataframe (data : DataFrame) (table_ref : string) (cfg : LoadJobConfig)
| CallLoadJobResult
| CallQuery (text : string) (cfg : QueryJobConfig)
| CallQueryJobResult
| CallIterRows.

Inductive LogLevel : Type := INFO | ERROR.
Record LogRecord : Type := MkLog { log_level : LogLevel; log_message : string }.

Record ServerState (E : Type) : Type := MkState {
  env : E;
  calls : list Call;
  logs : list LogRecord
}.
Arguments MkState {E} env calls logs.
Arguments env {E} s.
Arguments calls {E} s.
Arguments logs {E} s.

Definition M (E A : Type) : Type := ServerState E -> outcome A * ServerState E.

Definition ret {E A} (a : A) : M E A := fun s => (Returned a, s).

Definition bind {E A B} (m : M E A) (k : A -> M E B) : M E B :=
  fun s =>
    match m s with
    | (Returned a, s') => k a s'
    | (Raised e, s') => (Raised e, s')
    end.

Definition raise {E A} (e : exn) : M E A := fun s => (Raised e, s).

(** A pure Python expression that may raise. *)
Definition lift {E A} (o : outcome A) : M E A := fun s => (o, s).

(** [try: body  except Exception as e: handler(e)] *)
Definition try_except {E A} (body : M E A) (handler : exn -> M E A) : M E A :=
  fun s =>
    match body s with
    | (Returned a, s') => (Returned a, s')
    | (Raised e, s') => handler e s'
    end.

Declare Scope py_scope.
Delimit Scope py_scope with py.
Notation "x <- m ;; k" := (bind m (fun x => k))
  (at level 100, m at next level, right associativity) : py_scope.
Notation "m ;;; k" := (bind m (fun _ => k))
  (at level 100, right associativity) : py_scope.
Open Scope py_scope.

(** One call of an SDK operation, recorded in the history. *)
Definition sdk {E A} (label : Call) (op : E -> outcome A * E) : M E A :=
  fun s =>
    let '(r, e') := op (env s) in
    (r, MkState e' (calls s ++ [label]) (logs s)).

(** A mark in the history (entry into a method); it changes neither the
    environment nor the control flow. *)
Definition note {E} (label : Call) : M E unit :=
  fun s => (Returned tt, MkState (env s) (calls s ++ [label]) (logs s)).

Definition datetime_utcnow {E} `{Platform E} : M E Z :=
  fun s =>
    let '(t, e') := utcnow (env s) in
    (Returned t, MkState e' (calls s ++ [CallUtcnow t]) (logs s)).

Definition logger (level : LogLevel) {E} (msg : string) : M E unit :=
  fun s => (Returned tt, MkState (env s) (calls s) (logs s ++ [MkLog level msg])).

(** ** Cloud.py *)

Definition PROJECT_ID : string := "your-project-id".
Definition DATASET_ID : string := "analytics_dataset".
Definition TABLE_ID : string := "tab_clicks".

Definition http_response : Type := pyval * Z.

Definition load_job_config : LoadJobConfig :=
  MkLoadJobConfig WRITE_APPEND
    [ MkSchemaField "user_id" "STRING";
      MkSchemaField "tab_name" "STRING";
      MkSchemaField "click_timestamp" "TIMESTAMP";
      MkSchemaField "session_id" "STRING";
      MkSchemaField "app_version" "STRING";
      MkSchemaField "device_info" "STRING" ].

Definition required_fields : list string :=
  ["user_id"; "tab_name"; "session_id"; "app_version"; "device_info"].

(** [all(field in data for field in fields)]: stops at the first
    [False], and at the first membership test that raises. *)
Fixpoint all_fields_in (fields : list string) (data : pyval) : outcome bool :=
  match fields with
  | [] => Returned true
  | field :: rest =>
      match contains data field with
      | Returned true => all_fields_in rest data
      | Returned false => Returned false
      | Raised e => Raised e
      end
  end.

Definition validate_click_data (data : pyval) : outcome bool :=
  all_fields_in required_fields data.

Definition nl : string := String (Ascii.ascii_of_nat 10) EmptyString.

(** The f-string of [get_user_clicks]; [user_id] does not occur in it. *)
Definition user_clicks_query : string :=
  nl +:+ "        SELECT tab_name, COUNT(*) as click_count" +:+
  nl +:+ "        FROM `" +:+ PROJECT_ID +:+ "." +:+ DATASET_ID +:+ "." +:+ TABLE_ID +:+ "`" +:+
  nl +:+ "        WHERE user_id = @user_id" +:+
  nl +:+ "        GROUP BY tab_name" +:+
  nl +:+ "        ORDER BY click_count DESC" +:+
  nl +:+ "        ".

Definition missing_fields_body : pyval :=
  PDict {[ "error" := PStr "Missing required fields" ]}.

Definition success_body : pyval :=
  PDict (<[ "status" := PStr "success" ]>
         {[ "message" := PStr "Click event recorded successfully" ]}).

Definition internal_error_body : pyval :=
  PDict {[ "error" := PStr "Internal server error" ]}.

Definition option_str (o : option string) : pyval :=
  match o with
  | Some s => PStr s
  | None => PNone
  end.

Definition click_stat (row : Row) : pyval :=
  PDict (<[ "tab_name" := option_str (row_tab_name row) ]>
         {[ "click_count" := PInt (row_click_count row) ]}).

Definition click_statistics_body (user_id : string) (rows : list Row) : pyval :=
  PDict (<[ "user_id" := PStr user_id ]>
         {[ "click_statistics" := PList (map click_stat rows) ]}).

Section Handlers.
Context {E : Type} `{Platform E}.

(** [BigQueryClient.load_data]; the first line only marks the entry in
    the call history. *)
Definition load_data (data : DataFrame) (dataset_id table_id : string) : M E unit :=
  note (CallLoadData data dataset_id table_id) ;;;
  try_except
    (let table_ref := PROJECT_ID +:+ "." +:+ dataset_id +:+ "." +:+ table_id in
     let job_config := load_job_config in
     load_job <- sdk (CallLoadTableFromDataframe data table_ref job_config)
                     (load_table_from_dataframe data table_ref job_config) ;;
     sdk CallLoadJobResult (load_job_result load_job) ;;;
     logger INFO ("Successfully loaded " +:+ pretty (length data) +:+
                  " rows into " +:+ table_ref))
    (fun e =>
       logger ERROR ("Failed to load data to BigQuery: " +:+ exc_str e) ;;;
       raise e).

(** The row dict literal of [track_click], evaluated left to right. *)
Definition click_row (data : pyval) : M E (list (string * pyval)) :=
  user_id <- lift (getitem data "user_id") ;;
  tab_name <- lift (getitem data "tab_name") ;;
  click_timestamp <- datetime_utcnow ;;
  session_id <- lift (getitem data "session_id") ;;
  app_version <- lift (getitem data "app_version") ;;
  device_info <- lift (getitem data "device_info") ;;
  ret [ ("user_id", user_id);
        ("tab_name", tab_name);
        ("click_timestamp", PDatetime click_timestamp);
        ("session_id", session_id);
        ("app_version", app_version);
        ("device_info", device_info) ].

(** [track_click]; the argument is what [request.get_json()] does for
    the request at hand: return a value, or raise. *)
Definition track_click (get_json : outcome pyval) : M E http_response :=
  try_except
    (data <- lift get_json ;;
     valid <- lift (validate_click_data data) ;;
     if negb valid then
       ret (missing_fields_body, 400)
     else
       row <- click_row data ;;
       let df : DataFrame := [row] in
       load_data df DATASET_ID TABLE_ID ;;;
       ret (success_body, 200))
    (fun e =>
       logger ERROR ("Error processing click event: " +:+ exc_str e) ;;;
       ret (internal_error_body, 500)).

Definition user_clicks_job_config (user_id : string) : QueryJobConfig :=
  MkQueryJobConfig [ MkScalarQueryParameter "user_id" "STRING" user_id ].

(** [get_user_clicks] *)
Definition get_user_clicks (user_id : string) : M E http_response :=
  try_except
    (let query := user_clicks_query in
     let job_config := user_clicks_job_config user_id in
     query_job <- sdk (CallQuery query job_config) (client_query query job_config) ;;
     results <- sdk CallQueryJobResult (query_job_result query_job) ;;
     rows <- sdk CallIterRows (iter_rows results) ;;
     ret (click_statistics_body user_id rows, 200))
    (fun e =>
       logger ERROR ("Error retrieving click statistics: " +:+ exc_str e) ;;;
       ret (internal_error_body, 500)).

(** Requests handled one after another. *)
Fixpoint serve_clicks (requests : list (outcome pyval)) : M E (list http_response) :=
  match requests with
  | [] => ret []
  | r :: rest =>
      resp <- track_click r ;;
      resps <- serve_clicks rest ;;
      ret (resp :: resps)
  end.

End Handlers.

(** ** The aggregate query, read as SQL *)

(** A stored click event: one row of the append-only table, with the
    six columns of [load_job_config].  Columns are NULLABLE (no mode is
    given in the schema), hence the options. *)
Record ClickEvent : Type := MkClickEvent {
  ev_user_id : option string;
  ev_tab_name : option string;
  ev_click_timestamp : option Z;
  ev_session_id : option string;
  ev_app_version : option string;
  ev_device_info : option string
}.

Module Sql.

(** [WHERE user_id = @user_id]: a NULL user_id never matches. *)
Definition where_user_id (user_id : string) (table : list ClickEvent) : list ClickEvent :=
  filter (fun ev => ev_user_id ev = Some user_id) table.

(** [COUNT( * )] within the group of [tab]. *)
Definition count_tab (tab : option string) (events : list ClickEvent) : nat :=
  length (filter (fun ev => ev_tab_name ev = tab) events).

(** [SELECT tab_name, COUNT( * ) as click_count ... GROUP BY tab_name]:
    one row per distinct tab_name. *)
Definition group_by_tab_name (events : list ClickEvent) : list Row :=
  (fun tab => MkRow tab (Z.of_nat (count_tab tab events)))
    <$> remove_dups (ev_tab_name <$> events).

(** [ORDER BY click_count DESC]: [desc a b] reads "a may come before b". *)
Definition desc (a b : Row) : Prop := row_click_count b <= row_click_count a.

#[global] Instance desc_dec a b : Decision (desc a b).
Proof. unfold desc. apply _. Defined.

#[global] Instance desc_total : Total desc.
Proof. intros a b. unfold desc. lia. Qed.

#[global] Instance desc_trans : Transitive desc.
Proof. intros a b c. unfold desc. lia. Qed.

Definition order_by_click_count_desc (rows : list Row) : list Row :=
  merge_sort desc rows.

(** The whole of [user_clicks_query] with [@user_id] bound: one answer
    the warehouse may give.  Rows with equal counts are left here in
    the order the sort leaves them; the warehouse may return them in
    any order. *)
Definition run_user_clicks (table : list ClickEvent) (user_id : string) : list Row :=
  order_by_click_count_desc (group_by_tab_name (where_user_id user_id table)).

End Sql.

(** ** An in-memory warehouse

    One table, a scripted wall clock, and an optional outage.  It runs
    load jobs against the table and answers the one query the service
    sends. *)

Module Mem.

Record env : Type := MkEnv {
  time : nat -> Z;          (** the k-th reading of the wall clock *)
  reads : nat;              (** readings taken so far *)
  table : list ClickEvent;
  fault : option exn        (** when set, every request to the warehouse raises it *)
}.

Definition cell (col : string) (row : list (string * pyval)) : option pyval :=
  (list_to_map row : gmap string pyval) !! col.

Definition string_cell (col : string) (row : list (string * pyval)) : outcome (option string) :=
  match cell col row with
  | Some (PStr s) => Returned (Some s)
  | Some PNone | None => Returned None
  | Some v => Raised (Exn "ArrowTypeError"
                ("Expected bytes, got a '" +:+ type_name v +:+ "' object"))
  end.

Definition timestamp_cell (col : string) (row : list (string * pyval)) : outcome (option Z) :=
  match cell col row with
  | Some (PDatetime t) => Returned (Some t)
  | Some PNone | None => Returned None
  | Some v => Raised (Exn "ArrowTypeError"
                ("Expected datetime, got a '" +:+ type_name v +:+ "' object"))
  end.

Definition obind {A B} (o : outcome A) (k : A -> outcome B) : outcome B :=
  match o with
  | Returned a => k a
  | Raised e => Raised e
  end.

Definition to_event (row : list (string * pyval)) : outcome ClickEvent :=
  obind (string_cell "user_id" row) (fun u =>
  obind (string_cell "tab_name" row) (fun t =>
  obind (timestamp_cell "click_timestamp" row) (fun ts =>
  obind (string_cell "session_id" row) (fun se =>
  obind (string_cell "app_version" row) (fun a =>
  obind (string_cell "device_info" row) (fun d =>
  Returned (MkClickEvent u t ts se a d))))))).

Fixpoint to_events (data : DataFrame) : outcome (list ClickEvent) :=
  match data with
  | [] => Returned []
  | row :: rest =>
      obind (to_event row) (fun ev =>
      obind (to_events rest) (fun evs => Returned (ev :: evs)))
  end.

(** A load job is submitted unless the warehouse is out; the job itself
    fails when a row does not fit the schema, and [result()] reports
    that.  A job that succeeds has written the table according to its
    write disposition. *)
Definition submit_load (data : DataFrame) (table_ref : string) (cfg : LoadJobConfig)
    (e : env) : outcome (outcome unit) * env :=
  match fault e with
  | Some x => (Raised x, e)
  | None =>
      match to_events data with
      | Raised x => (Returned (Raised x), e)
      | Returned evs =>
          match write_disposition cfg with
          | WRITE_APPEND =>
              (Returned (Returned tt), MkEnv (time e) (reads e) (table e ++ evs) (fault e))
          | WRITE_TRUNCATE =>
              (Returned (Returned tt), MkEnv (time e) (reads e) evs (fault e))
          | WRITE_EMPTY =>
              match table e with
              | [] => (Returned (Returned tt), MkEnv (time e) (reads e) evs (fault e))
              | _ => (Returned (Raised (Exn "Conflict" "Already Exists: Table")), e)
              end
          end
      end
  end.

Definition submit_query (text : string) (cfg : QueryJobConfig) (e : env)
    : outcome (list Row) * env :=
  match fault e with
  | Some x => (Raised x, e)
  | None =>
      match query_parameters cfg with
      | [ MkScalarQueryParameter "user_id" "STRING" user_id ] =>
          if String.eqb text user_clicks_query
          then (Returned (Sql.run_user_clicks (table e) user_id), e)
          else (Raised (Exn "BadRequest" "Unsupported query"), e)
      | _ => (Raised (Exn "BadRequest" "Unsupported query parameters"), e)
      end
  end.

#[global] Instance platform : Platform env := {|
  LoadJob := outcome unit;
  QueryJob := list Row;
  RowIterator := list Row;
  utcnow := fun e =>
    (time e (reads e), MkEnv (time e) (S (reads e)) (table e) (fault e));
  load_table_from_dataframe := submit_load;
  load_job_result := fun job e => (job, e);
  client_query := submit_query;
  query_job_result := fun rows e => (Returned rows, e);
  iter_rows := fun rows e => (Returned rows, e)
|}.

Definition start (clock : nat -> Z) (events : list ClickEvent) (failure : option exn)
    : ServerState env :=
  MkState (MkEnv clock 0 events failure) [] [].

End Mem.

(** ** Sample requests *)

Definition payload_home : gmap string pyval :=
  list_to_map [ ("user_id", PStr "u1"); ("tab_name", PStr "Home");
                ("session_id", PStr "s1"); ("app_version", PStr "1.0");
                ("device_info", PStr "iPhone14") ].

Definition payload_settings : gmap string pyval :=
  <[ "tab_name" := PStr "Settings" ]> payload_home.

Definition post (payload : gmap string pyval) : outcome pyval := Returned (PDict payload).

Definition steady_clock (k : nat) : Z := 1000 + Z.of_nat k.

(** ** Reading the call history *)

(** The batches handed to [BigQueryClient.load_data], oldest first. *)
Definition loads (cs : list Call) : list (DataFrame * string * string) :=
  omap (fun c => match c with
                 | CallLoadData data dataset_id table_id => Some (data, dataset_id, table_id)
                 | _ => None
                 end) cs.

(** The load jobs submitted to the SDK. *)
Definition submissions (cs : list Call) : list (DataFrame * string * LoadJobConfig) :=
  omap (fun c => match c with
                 | CallLoadTableFromDataframe data table_ref cfg => Some (data, table_ref, cfg)
                 | _ => None
                 end) cs.

(** The query texts sent to the SDK. *)
Definition query_texts (cs : list Call) : list string :=
  omap (fun c => match c with
                 | CallQuery text _ => Some text
                 | _ => None
                 end) cs.

(** The wall-clock readings taken. *)
Definition readings (cs : list Call) : list Z :=
  omap (fun c => match c with
                 | CallUtcnow t => Some t
                 | _ => None
                 end) cs.

Definition row_timestamp (row : list (string * pyval)) : option Z :=
  match Mem.cell "click_timestamp" row with
  | Some (PDatetime t) => Some t
  | _ => None
  end.

(** The [click_timestamp] of every row handed to [load_data]. *)
Definition loaded_timestamps (cs : list Call) : list Z :=
  flat_map (fun '(data, _, _) => omap row_timestamp data) (loads cs).

(** The part of the history written between two states. *)
Definition new_calls {E} (before after : ServerState E) : list Call :=
  drop (length (calls before)) (calls after).

Definition new_logs {E} (before after : ServerState E) : list LogRecord :=
  drop (length (logs before)) (logs after).

(** The row [track_click] builds from a payload and a clock reading. *)
Definition click_event_row (user_id tab_name session_id app_version device_info : pyval)
    (now : Z) : list (string * pyval) :=
  [ ("user_id", user_id);
    ("tab_name", tab_name);
    ("click_timestamp", PDatetime now);
    ("session_id", session_id);
    ("app_version", app_version);
    ("device_info", device_info) ].

Definition has_required_fields (d : gmap string pyval) : Prop :=
  Forall (fun k => is_Some (d !! k)) required_fields.

(** A wall clock that is set back after its first reading. *)
Definition stepped_back_clock (k : nat) : Z :=
  match k with
  | O => 10
  | S _ => 5
  end.

(** ** Vocabulary of the statements *)

Definition table_ref_of (dataset_id table_id : string) : string :=
  PROJECT_ID +:+ "." +:+ dataset_id +:+ "." +:+ table_id.

Definition load_failed_log (x : exn) : LogRecord :=
  MkLog ERROR ("Failed to load data to BigQuery: " +:+ exc_str x).

Definition load_done_log (data : DataFrame) (dataset_id table_id : string) : LogRecord :=
  MkLog INFO ("Successfully loaded " +:+ pretty (length data) +:+ " rows into "
              +:+ table_ref_of dataset_id table_id).

Definition click_failed_log (x : exn) : LogRecord :=
  MkLog ERROR ("Error processing click event: " +:+ exc_str x).

Definition stats_failed_log (x : exn) : LogRecord :=
  MkLog ERROR ("Error retrieving click statistics: " +:+ exc_str x).

(** None, a bool, a number (and a datetime): no [__contains__]. *)
Definition is_scalar (v : pyval) : bool :=
  match v with
  | PNone | PBool _ | PInt _ | PFloat _ | PDatetime _ => true
  | PStr _ | PList _ | PDict _ => false
  end.

(** A list or a str: membership is defined, subscripting by a str is not. *)
Definition is_sequence (v : pyval) : bool :=
  match v with
  | PStr _ | PList _ => true
  | _ => false
  end.

(** Clicks of [user_id] on [tab] in the table, counted directly. *)
Definition clicks_of (table : list ClickEvent) (user_id : string) (tab : option string) : nat :=
  length (filter (fun ev => ev_user_id ev = Some user_id /\ ev_tab_name ev = tab) table).

Section Vocabulary.
Context {E : Type} `{Platform E}.

(** The state right after [track_click] has read the clock. *)
Definition after_clock (s : ServerState E) : ServerState E :=
  MkState (snd (utcnow (env s))) (calls s ++ [CallUtcnow (fst (utcnow (env s)))]) (logs s).

Definition log_also (l : LogRecord) (s : ServerState E) : ServerState E :=
  MkState (env s) (calls s) (logs s ++ [l]).

(** The warehouse raises [x] somewhere in the query: when the query is
    sent, when its result is awaited, or while the rows are read. *)
Definition query_raises (user_id : string) (e : E) (x : exn) : Prop :=
  let cfg := user_clicks_job_config user_id in
  (exists e1, client_query user_clicks_query cfg e = (Raised x, e1))
  \/ (exists job e1 e2,
        client_query user_clicks_query cfg e = (Returned job, e1)
        /\ query_job_result job e1 = (Raised x, e2))
  \/ (exists job e1 results e2 e3,
        client_query user_clicks_query cfg e = (Returned job, e1)
        /\ query_job_result job e1 = (Returned results, e2)
        /\ iter_rows results e2 = (Raised x, e3)).

(** The warehouse answers the query with [rows]. *)
Definition query_answers (user_id : string) (e : E) (rows : list Row) : Prop :=
  let cfg := user_clicks_job_config user_id in
  exists job e1 results e2 e3,
    client_query user_clicks_query cfg e = (Returned job, e1)
    /\ query_job_result job e1 = (Returned results, e2)
    /\ iter_rows results e2 = (Returned rows, e3).

End Vocabulary.

Definition outage : exn := Exn "ServiceUnavailable" "503 connection refused by backend".

Definition sample_table : list ClickEvent :=
  [ MkClickEvent (Some "u1") (Some "Settings") (Some 1) (Some "s1") (Some "1.0") (Some "iPhone14");
    MkClickEvent (Some "u2") (Some "Home") (Some 2) (Some "s7") (Some "1.0") (Some "Pixel8");
    MkClickEvent (Some "u1") (Some "Home") (Some 3) (Some "s1") (Some "1.0") (Some "iPhone14");
    MkClickEvent (Some "u1") (Some "Home") (Some 4) (Some "s2") (Some "1.1") (Some "iPhone14");
    MkClickEvent None (Some "Home") (Some 5) None None None;
    MkClickEvent (Some "u1") (Some "Home") (Some 6) (Some "s2") (Some "1.1") (Some "iPhone14") ].

(** ** Construction of the client: [BigQueryClient.__init__]

    The constructor talks to two more SDK entry points, the reader of a
    service-account key file and the constructor of [bigquery.Client].
    They have their own interface and their own history, kept apart from
    the request-time state. *)

Class Auth (E : Type) : Type := {
  Credentials : Type;
  Client : Type;
  (** [service_account.Credentials.from_service_account_file(path)] *)
  from_service_account_file : string -> E -> outcome Credentials * E;
  (** [bigquery.Client(credentials=..., project=...)]; [None] stands for
      the call without [credentials]. *)
  bigquery_Client : option Credentials -> string -> E -> outcome Client * E
}.

Inductive InitCall : Type :=
| CallFromServiceAccountFile (path : string)
| CallClient (explicit_credentials : bool) (project : string).

Record InitState (E : Type) : Type := MkInit {
  init_env : E;
  init_calls : list InitCall;
  init_logs : list LogRecord
}.
Arguments MkInit {E} init_env init_calls init_logs.
Arguments init_env {E} i.
Arguments init_calls {E} i.
Arguments init_logs {E} i.

Section Init.
Context {E : Type} `{Auth E}.

(** The [try] block of [__init__].  [if credentials_path:] holds for a
    non-empty str; None and the empty str take the [else] branch. *)
Definition init_attempt (project_id : string) (credentials_path : option string)
    (s : InitState E) : outcome Client * InitState E :=
  match credentials_path with
  | Some (String _ _ as path) =>
      let read := init_calls s ++ [CallFromServiceAccountFile path] in
      match from_service_account_file path (init_env s) with
      | (Returned credentials, e1) =>
          let '(r, e2) := bigquery_Client (Some credentials) project_id e1 in
          (r, MkInit e2 (read ++ [CallClient true project_id]) (init_logs s))
      | (Raised x, e1) => (Raised x, MkInit e1 read (init_logs s))
      end
  | Some EmptyString | None =>
      let '(r, e1) := bigquery_Client None project_id (init_env s) in
      (r, MkInit e1 (init_calls s ++ [CallClient false project_id]) (init_logs s))
  end.

(** [BigQueryClient.__init__]: the attempt, and on any exception one
    ERROR record followed by a bare [raise]. *)
Definition BigQueryClient_init (project_id : string) (credentials_path : option string)
    (s : InitState E) : outcome Client * InitState E :=
  match init_attempt project_id credentials_path s with
  | (Returned client, s') => (Returned client, s')
  | (Raised x, s') =>
      (Raised x,
       MkInit (init_env s') (init_calls s')
              (init_logs s' ++ [MkLog ERROR ("Failed to initialize BigQuery client: "
                                             +:+ exc_str x)]))
  end.

(** [bq_client = BigQueryClient(PROJECT_ID)] at import time. *)
Definition bq_client : InitState E -> outcome Client * InitState E :=
  BigQueryClient_init PROJECT_ID None.

End Init.

(** A host for the constructor: the key files that can be read, and
    whether ambient credentials exist. *)
Module Host.

Record env : Type := MkHost { key_files : list string; ambient : bool }.

#[global] Instance auth : Auth env := {|
  Credentials := string;
  Client := option string * string;
  from_service_account_file := fun path e =>
    if bool_decide (path ∈ key_files e)
    then (Returned path, e)
    else (Raised (Exn "FileNotFoundError"
                    ("[Errno 2] No such file or directory: '" +:+ path +:+ "'")), e);
  bigquery_Client := fun credentials project e =>
    match credentials with
    | Some c => (Returned (Some c, project), e)
    | None =>
        if ambient e
        then (Returned (None, project), e)
        else (Raised (Exn "DefaultCredentialsError"
                        "Could not automatically determine credentials."), e)
    end
|}.

Definition start (files : list string) (has_ambient : bool) : InitState env :=
  MkInit (MkHost files has_ambient) [] [].

End Host.

(** ** More vocabulary *)

(** The log written between two states at start-up. *)
Definition new_init_logs {E} (before after : InitState E) : list LogRecord :=
  drop (length (init_logs before)) (init_logs after).

Definition new_init_calls {E} (before after : InitState E) : list InitCall :=
  drop (length (init_calls before)) (init_calls after).

(** The sum of the [click_count] column. *)
Definition total_clicks (rows : list Row) : Z :=
  foldr (fun r acc => row_click_count r + acc) 0 rows.

(** The three SDK steps of [get_user_clicks], in order. *)
Definition query_steps (user_id : string) : list Call :=
  [ CallQuery user_clicks_query (user_clicks_job_config user_id);
    CallQueryJobResult;
    CallIterRows ].

(** ** A warehouse that runs the query text it is sent

    The fragment of SQL the service uses:
    [SELECT key, COUNT( * ) as alias FROM `table` [WHERE column = @parameter]
     GROUP BY column [ORDER BY alias [ASC|DESC]]].
    The text is split into words and parsed; a parsed query is checked
    against the table held and the parameters bound, and its answers are
    described as a relation, so that rows with equal counts may come in
    any order. *)

Module Bq.

Definition is_space (c : Ascii.ascii) : bool :=
  let n := Ascii.nat_of_ascii c in
  Nat.eqb n 32 || Nat.eqb n 10 || Nat.eqb n 13 || Nat.eqb n 9.

Fixpoint words_from (word : string) (text : string) : list string :=
  match text with
  | EmptyString =>
      match word with
      | EmptyString => []
      | _ => [word]
      end
  | String c rest =>
      if is_space c then
        match word with
        | EmptyString => words_from EmptyString rest
        | _ => word :: words_from EmptyString rest
        end
      else words_from (word +:+ String c EmptyString) rest
  end.

Definition words (text : string) : list string := words_from EmptyString text.

Definition upper_char (c : Ascii.ascii) : Ascii.ascii :=
  let n := Ascii.nat_of_ascii c in
  if Nat.leb 97 n && Nat.leb n 122 then Ascii.ascii_of_nat (n - 32) else c.

Fixpoint upper (s : string) : string :=
  match s with
  | EmptyString => EmptyString
  | String c rest => String (upper_char c) (upper rest)
  end.

(** Keywords are matched without regard to case. *)
Definition keyword (k : string) (word : string) : bool := String.eqb (upper word) k.

Definition strip_first (c : Ascii.ascii) (word : string) : option string :=
  match word with
  | String c' rest => if Ascii.eqb c c' then Some rest else None
  | EmptyString => None
  end.

Fixpoint strip_last (c : Ascii.ascii) (word : string) : option string :=
  match word with
  | EmptyString => None
  | String c' EmptyString => if Ascii.eqb c c' then Some EmptyString else None
  | String c' rest =>
      match strip_last c rest with
      | Some rest' => Some (String c' rest')
      | None => None
      end
  end.

Definition backquote : Ascii.ascii := Ascii.ascii_of_nat 96.
Definition comma : Ascii.ascii := Ascii.ascii_of_nat 44.
Definition at_sign : Ascii.ascii := Ascii.ascii_of_nat 64.

Definition unquote (word : string) : option string :=
  match strip_first backquote word with
  | Some rest => strip_last backquote rest
  | None => None
  end.

Inductive Direction : Type := ASC | DESC.

Record Query : Type := MkQuery {
  q_key : string;                         (** SELECT key, *)
  q_alias : string;                       (** COUNT( * ) as alias *)
  q_table : string;                       (** FROM `table` *)
  q_where : option (string * string);     (** WHERE column = @parameter *)
  q_group : string;                       (** GROUP BY column *)
  q_order : option (string * Direction)   (** ORDER BY name [ASC|DESC] *)
}.

Definition parse_where (ws : list string)
    : option (option (string * string) * list string) :=
  match ws with
  | w :: column :: eq :: parameter :: rest =>
      if keyword "WHERE" w then
        if String.eqb eq "=" then
          match strip_first at_sign parameter with
          | Some name => Some (Some (column, name), rest)
          | None => None
          end
        else None
      else Some (None, ws)
  | _ => Some (None, ws)
  end.

Definition parse_group (ws : list string) : option (string * list string) :=
  match ws with
  | g :: b :: column :: rest =>
      if keyword "GROUP" g && keyword "BY" b then Some (column, rest) else None
  | _ => None
  end.

Definition parse_order (ws : list string) : option (option (string * Direction)) :=
  match ws with
  | [] => Some None
  | [o; b; name] =>
      if keyword "ORDER" o && keyword "BY" b then Some (Some (name, ASC)) else None
  | [o; b; name; d] =>
      if keyword "ORDER" o && keyword "BY" b then
        if keyword "DESC" d then Some (Some (name, DESC))
        else if keyword "ASC" d then Some (Some (name, ASC))
        else None
      else None
  | _ => None
  end.

Definition parse (text : string) : option Query :=
  match words text with
  | sel :: key :: count :: as_ :: alias :: from :: table :: rest =>
      if keyword "SELECT" sel && keyword "COUNT(*)" count
         && keyword "AS" as_ && keyword "FROM" from then
        match strip_last comma key, unquote table, parse_where rest with
        | Some key', Some table', Some (where_, rest1) =>
            match parse_group rest1 with
            | Some (group, rest2) =>
                match parse_order rest2 with
                | Some order => Some (MkQuery key' alias table' where_ group order)
                | None => None
                end
            | None => None
            end
        | _, _, _ => None
        end
      else None
  | _ => None
  end.

(** The STRING columns of the table. *)
Definition column (name : string) : option (ClickEvent -> option string) :=
  if String.eqb name "user_id" then Some ev_user_id
  else if String.eqb name "tab_name" then Some ev_tab_name
  else if String.eqb name "session_id" then Some ev_session_id
  else if String.eqb name "app_version" then Some ev_app_version
  else if String.eqb name "device_info" then Some ev_device_info
  else None.

(** The value bound to a STRING parameter. *)
Fixpoint parameter (name : string) (params : list ScalarQueryParameter) : option string :=
  match params with
  | [] => None
  | p :: rest =>
      if String.eqb (param_name p) name && String.eqb (param_type p) "STRING"
      then Some (param_value p)
      else parameter name rest
  end.

(** A query that passed the checks: which rows to keep, the grouping
    column, and the order asked for the count. *)
Record Plan : Type := MkPlan {
  kept : option ((ClickEvent -> option string) * string);
  grouped : ClickEvent -> option string;
  ordered : option Direction
}.

(** The checks: the table is the one held, the selected key is the
    grouping column, the columns exist, the parameter is bound, and the
    order is on the count. *)
Definition plan (q : Query) (params : list ScalarQueryParameter) (held : string)
    : option Plan :=
  if String.eqb (q_table q) held && String.eqb (q_key q) (q_group q) then
    match column (q_group q) with
    | Some g =>
        let kept_rows :=
          match q_where q with
          | None => Some None
          | Some (c, p) =>
              match column c, parameter p params with
              | Some f, Some v => Some (Some (f, v))
              | _, _ => None
              end
          end in
        let order :=
          match q_order q with
          | None => Some None
          | Some (name, d) =>
              if String.eqb name (q_alias q) then Some (Some d) else None
          end in
        match kept_rows, order with
        | Some k, Some o => Some (MkPlan k g o)
        | _, _ => None
        end
    | None => None
    end
  else None.

(** The handler reads [row.tab_name] and [row.click_count]: the result
    columns must bear these names. *)
Definition readable (q : Query) : bool :=
  String.eqb (q_key q) "tab_name" && String.eqb (q_alias q) "click_count".

Definition selected (p : Plan) (table : list ClickEvent) : list ClickEvent :=
  match kept p with
  | Some (f, v) => filter (fun ev => f ev = Some v) table
  | None => table
  end.

(** One row per distinct value of the grouping column, with its count. *)
Definition groups (p : Plan) (table : list ClickEvent) : list Row :=
  (fun k => MkRow k (Z.of_nat (length (filter (fun ev => grouped p ev = k)
                                              (selected p table)))))
    <$> remove_dups (grouped p <$> selected p table).

Definition asc (a b : Row) : Prop := row_click_count a <= row_click_count b.

#[global] Instance asc_dec a b : Decision (asc a b).
Proof. unfold asc. apply _. Defined.

#[global] Instance asc_total : Total asc.
Proof. intros a b. unfold asc. lia. Qed.


(** One admissible answer, computed. *)
Definition run (p : Plan) (table : list ClickEvent) : list Row :=
  match ordered p with
  | Some DESC => merge_sort Sql.desc (groups p table)
  | Some ASC => merge_sort asc (groups p table)
  | None => groups p table
  end.

End Bq.

Section RunsSql.
Context {E : Type} `{Platform E}.


End RunsSql.

(** The in-memory warehouse, with queries run from their text. *)
Module Engine.

Record env : Type := Wrap { inner : Mem.env }.

Definition held : string := "your-project-id.analytics_dataset.tab_clicks".

Definition submit_query (text : string) (cfg : QueryJobConfig) (e : env)
    : outcome (outcome (list Row)) * env :=
  match Mem.fault (inner e) with
  | Some x => (Raised x, e)
  | None =>
      match Bq.parse text with
      | Some q =>
          match Bq.plan q (query_parameters cfg) held with
          | Some p =>
              if Bq.readable q
              then (Returned (Returned (Bq.run p (Mem.table (inner e)))), e)
              else (Returned (Raised (Exn "AttributeError" "no such field")), e)
          | None => (Raised (Exn "BadRequest" "Invalid query"), e)
          end
      | None => (Raised (Exn "BadRequest" "Syntax error"), e)
      end
  end.

#[global] Instance platform : Platform env := {|
  LoadJob := outcome unit;
  QueryJob := outcome (list Row);
  RowIterator := outcome (list Row);
  utcnow := fun e => let '(t, m) := utcnow (inner e) in (t, Wrap m);
  load_table_from_dataframe := fun data table_ref cfg e =>
    let '(job, m) := Mem.submit_load data table_ref cfg (inner e) in (job, Wrap m);
  load_job_result := fun job e => (job, e);
  client_query := submit_query;
  query_job_result := fun job e => (Returned job, e);
  iter_rows := fun results e => (results, e)
|}.

Definition start (clock : nat -> Z) (events : list ClickEvent) : ServerState env :=
  MkState (Wrap (Mem.MkEnv clock 0 events None)) [] [].

End Engine.

(** A warehouse that answers every query with the rows it was given,
    whatever the text asks; everything else is the in-memory
    warehouse. *)
Module Scripted.

Record env : Type := MkScripted { inner : Mem.env; answer : list Row }.

#[global] Instance platform : Platform env := {|
  LoadJob := outcome unit;
  QueryJob := list Row;
  RowIterator := list Row;
  utcnow := fun e => let '(t, m) := utcnow (inner e) in (t, MkScripted m (answer e));
  load_table_from_dataframe := fun data table_ref cfg e =>
    let '(job, m) := Mem.submit_load data table_ref cfg (inner e) in
    (job, MkScripted m (answer e));
  load_job_result := fun job e => (job, e);
  client_query := fun _ _ e => (Returned (answer e), e);
  query_job_result := fun rows e => (Returned rows, e);
  iter_rows := fun rows e => (Returned rows, e)
|}.

Definition start (rows : list Row) : ServerState env :=
  MkState (MkScripted (Mem.MkEnv steady_clock 0 [] None) rows) [] [].

End Scripted.

(** * Properties *)

(** ** The validator *)

Lemma all_fields_in_dict_true (fields : list string) (d : gmap string pyval) :
  all_fields_in fields (PDict d) = Returned true
  <-> Forall (fun k => is_Some (d !! k)) fields.
Proof.
  induction fields as [|k rest IH]; simpl.
  - split; [constructor | reflexivity].
  - case_bool_decide as Hk.
    + rewrite IH. split; [by constructor | by inversion 1].
    + split; [discriminate | by inversion 1].
Qed.

Lemma all_fields_in_dict_dom (fields : list string) (d d' : gmap string pyval) :
  dom d' = dom d -> all_fields_in fields (PDict d') = all_fields_in fields (PDict d).
Proof.
  intros Hdom. induction fields as [|k rest IH]; simpl; [reflexivity|].
  rewrite (bool_decide_ext (is_Some (d' !! k)) (is_Some (d !! k))).
  - by rewrite IH.
  - by rewrite <- !elem_of_dom, Hdom.
Qed.

Lemma validate_dict_true (d : gmap string pyval) :
  validate_click_data (PDict d) = Returned true <-> has_required_fields d.
Proof. apply all_fields_in_dict_true. Qed.

Lemma validate_dict_false (d : gmap string pyval) :
  ~ has_required_fields d -> validate_click_data (PDict d) = Returned false.
Proof.
  intros Hno. pose proof (validate_dict_true d) as Hiff.
  unfold validate_click_data in *.
  assert (Hb : exists b, all_fields_in required_fields (PDict d) = Returned b).
  { generalize required_fields as fields.
    induction fields as [|k rest [b IH]]; simpl; [by eexists|].
    case_bool_decide; eauto. }
  destruct Hb as [[] Hb]; [|exact Hb].
  exfalso. by apply Hno, Hiff.
Qed.

(** C4. On every mapping the validator returns a boolean, and that
    boolean is [True] exactly when each of the five required keys is
    present.  The values play no part: two mappings with the same keys
    get the same answer.  The validator is a function of its argument
    alone, so running it leaves the server state as it was. *)
Theorem validate_click_data_presence_only (d : gmap string pyval) :
  (validate_click_data (PDict d) = Returned true
   <-> forall k, k ∈ ["user_id"; "tab_name"; "session_id"; "app_version"; "device_info"]
                 -> is_Some (d !! k))
  /\ (validate_click_data (PDict d) = Returned true
      \/ validate_click_data (PDict d) = Returned false)
  /\ (forall d' : gmap string pyval,
        dom d' = dom d -> validate_click_data (PDict d') = validate_click_data (PDict d))
  /\ (forall (E : Type) (s : ServerState E),
        snd (lift (validate_click_data (PDict d)) s) = s).
Proof.
  repeat split.
  - intros Hv. apply validate_dict_true in Hv.
    unfold has_required_fields in Hv. rewrite Forall_forall in Hv. exact Hv.
  - intros Hall. apply validate_dict_true. apply Forall_forall. exact Hall.
  - destruct (decide (has_required_fields d)) as [Hy|Hn].
    + left. by apply validate_dict_true.
    + right. by apply validate_dict_false.
  - intros d' Hdom. by apply all_fields_in_dict_dom.
Qed.

(** ** [BigQueryClient.load_data] *)

Section LoadData.
Context {E : Type} `{Platform E}.

(** The three ways through [load_data]. *)
Lemma load_data_cases (data : DataFrame) (dataset_id table_id : string) (s : ServerState E) :
  load_data data dataset_id table_id s =
  let table_ref := table_ref_of dataset_id table_id in
  let submitted := calls s ++ [CallLoadData data dataset_id table_id;
                               CallLoadTableFromDataframe data table_ref load_job_config] in
  match load_table_from_dataframe data table_ref load_job_config (env s) with
  | (Raised x, e1) => (Raised x, MkState e1 submitted (logs s ++ [load_failed_log x]))
  | (Returned job, e1) =>
      match load_job_result job e1 with
      | (Raised x, e2) =>
          (Raised x, MkState e2 (submitted ++ [CallLoadJobResult])
                             (logs s ++ [load_failed_log x]))
      | (Returned _, e2) =>
          (Returned tt, MkState e2 (submitted ++ [CallLoadJobResult])
                                (logs s ++ [load_done_log data dataset_id table_id]))
      end
  end.
Proof.
  unfold load_data, bind, note, try_except, sdk, logger, raise, table_ref_of. simpl.
  destruct (load_table_from_dataframe _ _ _ (env s)) as [[job|x] e1]; simpl.
  - destruct (load_job_result job e1) as [[[]|x] e2]; simpl;
      rewrite <- !app_assoc; reflexivity.
  - rewrite <- !app_assoc; reflexivity.
Qed.

Lemma new_calls_app (s : ServerState E) (e : E) (cs : list Call) (ls : list LogRecord) :
  new_calls s (MkState e (calls s ++ cs) ls) = cs.
Proof. unfold new_calls. simpl. apply drop_app_length. Qed.

Lemma new_logs_app (s : ServerState E) (e : E) (cs : list Call) (ls : list LogRecord) :
  new_logs s (MkState e cs (logs s ++ ls)) = ls.
Proof. unfold new_logs. simpl. apply drop_app_length. Qed.

(** C7. A call of [load_data] hands the SDK exactly one load job: the
    given batch, for table [PROJECT_ID.dataset.table], configured with
    WRITE_APPEND and the six-column schema.  When the SDK accepts the
    job, [load_data] calls the job's [result()] before it returns, and
    its own outcome is the outcome of that wait: it returns normally
    only after the job completed, and raises the job's failure
    otherwise.  When the SDK refuses the job, that exception is raised. *)
Theorem load_data_one_awaited_append_job
    (data : DataFrame) (dataset_id table_id : string) (s : ServerState E) :
  let table_ref := PROJECT_ID +:+ "." +:+ dataset_id +:+ "." +:+ table_id in
  let cfg := MkLoadJobConfig WRITE_APPEND
               [ MkSchemaField "user_id" "STRING";
                 MkSchemaField "tab_name" "STRING";
                 MkSchemaField "click_timestamp" "TIMESTAMP";
                 MkSchemaField "session_id" "STRING";
                 MkSchemaField "app_version" "STRING";
                 MkSchemaField "device_info" "STRING" ] in
  let done := load_data data dataset_id table_id s in
  submissions (new_calls s (snd done)) = [(data, table_ref, cfg)]
  /\ match load_table_from_dataframe data table_ref cfg (env s) with
     | (Raised x, e1) =>
         fst done = Raised x /\ env (snd done) = e1
         /\ new_calls s (snd done)
            = [CallLoadData data dataset_id table_id;
               CallLoadTableFromDataframe data table_ref cfg]
     | (Returned job, e1) =>
         new_calls s (snd done)
         = [CallLoadData data dataset_id table_id;
            CallLoadTableFromDataframe data table_ref cfg;
            CallLoadJobResult]
         /\ match load_job_result job e1 with
            | (Returned _, e2) => fst done = Returned tt /\ env (snd done) = e2
            | (Raised x, e2) => fst done = Raised x /\ env (snd done) = e2
            end
     end.
Proof.
  intros table_ref cfg done. subst done.
  rewrite load_data_cases. simpl.
  change (table_ref_of dataset_id table_id) with table_ref.
  change load_job_config with cfg.
  destruct (load_table_from_dataframe data table_ref cfg (env s)) as [[job|x] e1].
  - destruct (load_job_result job e1) as [[[]|x] e2]; simpl;
      rewrite <- app_assoc, new_calls_app; simpl; auto.
  - simpl. rewrite new_calls_app. simpl. auto.
Qed.

End LoadData.

(** ** The ingest handler *)

Section TrackClick.
Context {E : Type} `{Platform E}.

(** A payload with the five fields: the clock is read once, the row is
    built, and the response follows the outcome of [load_data]. *)
Lemma track_click_valid_cases (d : gmap string pyval) (u t se a dv : pyval)
    (s : ServerState E) :
  d !! "user_id" = Some u -> d !! "tab_name" = Some t -> d !! "session_id" = Some se ->
  d !! "app_version" = Some a -> d !! "device_info" = Some dv ->
  track_click (Returned (PDict d)) s =
  let row := click_event_row u t se a dv (fst (utcnow (env s))) in
  match load_data [row] DATASET_ID TABLE_ID (after_clock s) with
  | (Returned _, s2) => (Returned (success_body, 200), s2)
  | (Raised x, s2) => (Returned (internal_error_body, 500), log_also (click_failed_log x) s2)
  end.
Proof.
  intros Hu Ht Hse Ha Hdv.
  unfold track_click, try_except, bind at 1, lift at 1. simpl.
  unfold bind at 1, lift at 1, validate_click_data. simpl.
  rewrite Hu, Ht, Hse, Ha, Hdv. simpl.
  unfold click_row, bind, lift, datetime_utcnow, ret, after_clock, click_event_row.
  simpl. rewrite Hu, Ht, Hse, Ha, Hdv.
  destruct (utcnow (env s)) as [now e1]. simpl.
  destruct (load_data _ _ _ _) as [[[]|x] s2]; reflexivity.
Qed.

Lemma track_click_invalid_dict (d : gmap string pyval) (s : ServerState E) :
  ~ has_required_fields d ->
  track_click (Returned (PDict d)) s = (Returned (missing_fields_body, 400), s).
Proof.
  intros Hno. apply validate_dict_false in Hno.
  unfold track_click, try_except, bind, lift, ret. rewrite Hno. reflexivity.
Qed.

Lemma new_calls_same (s : ServerState E) : new_calls s s = [].
Proof. unfold new_calls. apply drop_all. Qed.

(** C2. When the parsed mapping lacks one of the five required fields
    the handler answers 400 with [{"error": "Missing required fields"}]
    and leaves the state untouched: [load_data] is not entered and no
    load job reaches the SDK. *)
Theorem track_click_missing_field_400 (d : gmap string pyval) (k : string)
    (s : ServerState E) :
  k ∈ required_fields -> d !! k = None ->
  let done := track_click (Returned (PDict d)) s in
  fst done = Returned (PDict {[ "error" := PStr "Missing required fields" ]}, 400)
  /\ snd done = s
  /\ loads (new_calls s (snd done)) = []
  /\ submissions (new_calls s (snd done)) = [].
Proof.
  intros Hk Hnone done. subst done.
  rewrite track_click_invalid_dict.
  - simpl. rewrite new_calls_same. auto.
  - unfold has_required_fields. rewrite Forall_forall. intros Hall.
    specialize (Hall k Hk). rewrite Hnone in Hall. by destruct Hall.
Qed.

Lemma load_data_history (data : DataFrame) (dataset_id table_id : string)
    (s : ServerState E) :
  exists tail,
    calls (snd (load_data data dataset_id table_id s))
    = calls s ++ [CallLoadData data dataset_id table_id;
                  CallLoadTableFromDataframe data (table_ref_of dataset_id table_id)
                    load_job_config] ++ tail
    /\ (tail = [] \/ tail = [CallLoadJobResult]).
Proof.
  rewrite load_data_cases. simpl.
  destruct (load_table_from_dataframe _ _ _ _) as [[job|x] e1].
  - exists [CallLoadJobResult].
    destruct (load_job_result job e1) as [[[]|x] e2]; simpl;
      rewrite <- app_assoc; auto.
  - exists []. simpl. auto.
Qed.

(** What a payload with the five fields adds to the call history. *)
Lemma track_click_valid_calls (d : gmap string pyval) (u t se a dv : pyval)
    (s : ServerState E) :
  d !! "user_id" = Some u -> d !! "tab_name" = Some t -> d !! "session_id" = Some se ->
  d !! "app_version" = Some a -> d !! "device_info" = Some dv ->
  let now := fst (utcnow (env s)) in
  let row := click_event_row u t se a dv now in
  exists tail,
    calls (snd (track_click (Returned (PDict d)) s))
    = calls s ++
      [CallUtcnow now;
       CallLoadData [row] DATASET_ID TABLE_ID;
       CallLoadTableFromDataframe [row] (table_ref_of DATASET_ID TABLE_ID) load_job_config]
      ++ tail
    /\ (tail = [] \/ tail = [CallLoadJobResult]).
Proof.
  intros Hu Ht Hse Ha Hdv now row.
  rewrite (track_click_valid_cases d u t se a dv) by assumption. simpl.
  fold now. fold row.
  destruct (load_data_history [row] DATASET_ID TABLE_ID (after_clock s))
    as (tail & Hcalls & Htail).
  exists tail. split; [|exact Htail].
  destruct (load_data [row] DATASET_ID TABLE_ID (after_clock s)) as [[[]|x] s2];
    simpl in *; rewrite Hcalls; rewrite <- app_assoc; reflexivity.
Qed.

Lemma track_click_valid_history (d : gmap string pyval) (u t se a dv : pyval)
    (s : ServerState E) :
  d !! "user_id" = Some u -> d !! "tab_name" = Some t -> d !! "session_id" = Some se ->
  d !! "app_version" = Some a -> d !! "device_info" = Some dv ->
  let now := fst (utcnow (env s)) in
  let row := click_event_row u t se a dv now in
  exists tail,
    new_calls s (snd (track_click (Returned (PDict d)) s))
    = [CallUtcnow now;
       CallLoadData [row] DATASET_ID TABLE_ID;
       CallLoadTableFromDataframe [row] (table_ref_of DATASET_ID TABLE_ID) load_job_config]
      ++ tail
    /\ (tail = [] \/ tail = [CallLoadJobResult]).
Proof.
  intros Hu Ht Hse Ha Hdv now row.
  destruct (track_click_valid_calls d u t se a dv s) as (tail & Hcalls & Htail);
    try assumption.
  exists tail. split; [|exact Htail].
  unfold new_calls. rewrite Hcalls. apply drop_app_length.
Qed.


Lemma required_values (d : gmap string pyval) :
  has_required_fields d ->
  exists u t se a dv,
    d !! "user_id" = Some u /\ d !! "tab_name" = Some t /\ d !! "session_id" = Some se
    /\ d !! "app_version" = Some a /\ d !! "device_info" = Some dv.
Proof.
  unfold has_required_fields, required_fields. intros Hall.
  repeat match goal with
         | Hf : Forall _ (_ :: _) |- _ => inversion Hf; subst; clear Hf
         end.
  repeat match goal with
         | Hs : is_Some _ |- _ => destruct Hs
         end.
  eauto 10.
Qed.

Lemma has_required_fields_agree (d d' : gmap string pyval) :
  (forall k, k ∈ required_fields -> d !! k = d' !! k) ->
  has_required_fields d -> has_required_fields d'.
Proof.
  unfold has_required_fields. rewrite !Forall_forall.
  intros Hagree Hall k Hk. rewrite <- Hagree by exact Hk. by apply Hall.
Qed.

Lemma track_click_agree (d d' : gmap string pyval) (s : ServerState E) :
  (forall k, k ∈ required_fields -> d !! k = d' !! k) ->
  track_click (Returned (PDict d)) s = track_click (Returned (PDict d')) s.
Proof.
  intros Hagree.
  destruct (decide (has_required_fields d)) as [Hv|Hn].
  - destruct (required_values d Hv) as (u & t & se & a & dv & Hu & Ht & Hse & Ha & Hdv).
    rewrite (track_click_valid_cases d u t se a dv) by assumption.
    rewrite (track_click_valid_cases d' u t se a dv);
      [reflexivity | rewrite <- Hagree; [assumption | unfold required_fields; set_solver] ..].
  - rewrite !track_click_invalid_dict; [reflexivity | | exact Hn].
    intros Hv'. apply Hn. apply (has_required_fields_agree d' d); [|exact Hv'].
    intros k Hk. symmetry. by apply Hagree.
Qed.

(** C10. Two payloads that agree on the five required fields are handled
    identically from the same state (same clock, same warehouse): same
    response, same row handed to the load, same log.  In particular an
    extra key changes nothing, and every row handed to the load has
    exactly the six schema columns, so no extra key is persisted. *)
Theorem track_click_reads_required_fields_only (d d' : gmap string pyval)
    (s : ServerState E) :
  (forall k, k ∈ ["user_id"; "tab_name"; "session_id"; "app_version"; "device_info"]
             -> d !! k = d' !! k) ->
  track_click (Returned (PDict d)) s = track_click (Returned (PDict d')) s
  /\ (forall (extra : string) (v : pyval),
        extra ∉ ["user_id"; "tab_name"; "session_id"; "app_version"; "device_info"] ->
        track_click (Returned (PDict (<[extra := v]> d))) s
        = track_click (Returned (PDict d)) s)
  /\ (forall data dataset_id table_id row,
        (data, dataset_id, table_id) ∈ loads (new_calls s (snd (track_click (Returned (PDict d)) s))) ->
        row ∈ data ->
        map fst row = ["user_id"; "tab_name"; "click_timestamp";
                       "session_id"; "app_version"; "device_info"]).
Proof.
  intros Hagree. repeat split.
  - by apply track_click_agree.
  - intros extra v Hextra. apply track_click_agree.
    intros k Hk. apply lookup_insert_ne. intros ->. by apply Hextra.
  - intros data dataset_id table_id row Hin Hrow.
    destruct (decide (has_required_fields d)) as [Hv|Hn].
    + destruct (required_values d Hv) as (u & t & se & a & dv & Hu & Ht & Hse & Ha & Hdv).
      destruct (track_click_valid_history d u t se a dv s) as (tail & Hnew & Htail);
        try assumption.
      rewrite Hnew in Hin.
      assert (data = [click_event_row u t se a dv (fst (utcnow (env s)))]) as ->.
      { destruct Htail as [-> | ->]; simpl in Hin;
          apply list_elem_of_singleton in Hin; congruence. }
      apply list_elem_of_singleton in Hrow. subst row. reflexivity.
    + rewrite track_click_invalid_dict in Hin by exact Hn.
      simpl in Hin. rewrite new_calls_same in Hin. simpl in Hin.
      by apply elem_of_nil in Hin.
Qed.

End TrackClick.

(** ** Bodies that are not a JSON object *)

Section NotAMapping.
Context {E : Type} `{Platform E}.

Lemma all_fields_in_sequence (fields : list string) (v : pyval) :
  is_sequence v = true ->
  exists b, all_fields_in fields v = Returned b.
Proof.
  intros Hseq. induction fields as [|k rest [b IH]]; simpl; [by eexists|].
  destruct v; try discriminate; simpl;
    match goal with |- context [if ?c then _ else _] => destruct c end; eauto.
Qed.

Lemma all_fields_in_list (fields : list string) (items : list pyval) :
  all_fields_in fields (PList items)
  = Returned (forallb (fun k => existsb (fun v => eq_str v k) items) fields).
Proof.
  induction fields as [|k rest IH]; simpl; [reflexivity|].
  destruct (existsb _ items); simpl; [exact IH | reflexivity].
Qed.

Lemma all_fields_in_str (fields : list string) (text : string) :
  all_fields_in fields (PStr text)
  = Returned (forallb (fun k => is_substring k text) fields).
Proof.
  induction fields as [|k rest IH]; simpl; [reflexivity|].
  destruct (is_substring k text); simpl; [exact IH | reflexivity].
Qed.

Lemma track_click_raised (x : exn) (s : ServerState E) :
  track_click (Raised x) s
  = (Returned (internal_error_body, 500), log_also (click_failed_log x) s).
Proof. reflexivity. Qed.

Lemma track_click_scalar (v : pyval) (s : ServerState E) :
  is_scalar v = true ->
  track_click (Returned v) s
  = (Returned (internal_error_body, 500),
     log_also (click_failed_log
                 (TypeError ("argument of type '" +:+ type_name v +:+ "' is not iterable"))) s).
Proof. destruct v; try discriminate; reflexivity. Qed.

Lemma track_click_returned (v : pyval) (s : ServerState E) :
  track_click (Returned v) s =
  match validate_click_data v with
  | Raised x => (Returned (internal_error_body, 500), log_also (click_failed_log x) s)
  | Returned false => (Returned (missing_fields_body, 400), s)
  | Returned true =>
      try_except
        (row <- click_row v ;;
         load_data [row] DATASET_ID TABLE_ID ;;;
         ret (success_body, 200))
        (fun e =>
           logger ERROR ("Error processing click event: " +:+ exc_str e) ;;;
           ret (internal_error_body, 500)) s
  end.
Proof.
  unfold track_click, try_except, bind, lift.
  destruct (validate_click_data v) as [[]|x]; reflexivity.
Qed.

Lemma track_click_sequence (v : pyval) (s : ServerState E) :
  is_sequence v = true ->
  exists b, validate_click_data v = Returned b
    /\ fst (track_click (Returned v) s)
       = Returned (if b then (internal_error_body, 500) else (missing_fields_body, 400))
    /\ calls (snd (track_click (Returned v) s)) = calls s.
Proof.
  intros Hseq.
  destruct (all_fields_in_sequence required_fields v Hseq) as [b Hb].
  change (validate_click_data v = Returned b) in Hb.
  exists b. split; [exact Hb|].
  rewrite track_click_returned, Hb.
  destruct b; [|auto].
  destruct v; try discriminate; auto.
Qed.

(** C9, as the code has it.  When [get_json()] raises, or returns None,
    a bool or a number, the handler answers 500 with the generic body
    and the warehouse is not called.  When it returns a JSON array or
    string, the membership tests of the validator do not raise: the
    answer is 400 "Missing required fields" as soon as one required name
    is not an element (not a substring), and 500 only when all five are,
    because subscripting the value by a field name then raises. *)
Theorem track_click_without_mapping (s : ServerState E) :
  (forall x : exn,
     fst (track_click (Raised x) s) = Returned (internal_error_body, 500)
     /\ calls (snd (track_click (Raised x) s)) = calls s)
  /\ (forall v : pyval,
        is_scalar v = true ->
        fst (track_click (Returned v) s) = Returned (internal_error_body, 500)
        /\ calls (snd (track_click (Returned v) s)) = calls s)
  /\ (forall items : list pyval,
        fst (track_click (Returned (PList items)) s)
        = Returned (if forallb (fun k => existsb (fun v => eq_str v k) items) required_fields
                    then (internal_error_body, 500)
                    else (missing_fields_body, 400))
        /\ calls (snd (track_click (Returned (PList items)) s)) = calls s)
  /\ (forall text : string,
        fst (track_click (Returned (PStr text)) s)
        = Returned (if forallb (fun k => is_substring k text) required_fields
                    then (internal_error_body, 500)
                    else (missing_fields_body, 400))
        /\ calls (snd (track_click (Returned (PStr text)) s)) = calls s).
Proof.
  split; [|split; [|split]].
  - intros x. by rewrite track_click_raised.
  - intros v Hv. by rewrite track_click_scalar.
  - intros items.
    destruct (track_click_sequence (PList items) s eq_refl) as (b & Hb & Hresp & Hcalls).
    split; [|exact Hcalls].
    unfold validate_click_data in Hb. rewrite all_fields_in_list in Hb.
    rewrite Hresp. set (fb := forallb _ required_fields) in *.
    assert (b = fb) as -> by congruence. reflexivity.
  - intros text.
    destruct (track_click_sequence (PStr text) s eq_refl) as (b & Hb & Hresp & Hcalls).
    split; [|exact Hcalls].
    unfold validate_click_data in Hb. rewrite all_fields_in_str in Hb.
    rewrite Hresp. set (fb := forallb _ required_fields) in *.
    assert (b = fb) as -> by congruence. reflexivity.
Qed.

End NotAMapping.

(** ** The read-aggregate handler *)

Section GetUserClicks.
Context {E : Type} `{Platform E}.

(** The four ways through [get_user_clicks]. *)
Lemma get_user_clicks_cases (user_id : string) (s : ServerState E) :
  get_user_clicks user_id s =
  let cfg := user_clicks_job_config user_id in
  let sent := calls s ++ [CallQuery user_clicks_query cfg] in
  match client_query user_clicks_query cfg (env s) with
  | (Raised x, e1) =>
      (Returned (internal_error_body, 500), MkState e1 sent (logs s ++ [stats_failed_log x]))
  | (Returned job, e1) =>
      match query_job_result job e1 with
      | (Raised x, e2) =>
          (Returned (internal_error_body, 500),
           MkState e2 (sent ++ [CallQueryJobResult]) (logs s ++ [stats_failed_log x]))
      | (Returned results, e2) =>
          match iter_rows results e2 with
          | (Raised x, e3) =>
              (Returned (internal_error_body, 500),
               MkState e3 (sent ++ [CallQueryJobResult; CallIterRows])
                          (logs s ++ [stats_failed_log x]))
          | (Returned rows, e3) =>
              (Returned (click_statistics_body user_id rows, 200),
               MkState e3 (sent ++ [CallQueryJobResult; CallIterRows]) (logs s))
          end
      end
  end.
Proof.
  unfold get_user_clicks, try_except, bind, sdk, logger, ret. simpl.
  destruct (client_query _ _ (env s)) as [[job|x] e1]; simpl; [|reflexivity].
  destruct (query_job_result job e1) as [[results|x] e2]; simpl; [|reflexivity].
  destruct (iter_rows results e2) as [[rows|x] e3]; simpl;
    rewrite <- !app_assoc; reflexivity.
Qed.

(** C3. Whatever exception the warehouse client raises, during the load
    of an ingest or during the query of a read, the response is 500 with
    the fixed body [{"error": "Internal server error"}], which does not
    depend on the exception; the exception text goes to the log, in one
    ERROR record written by the handler. *)
Theorem warehouse_failure_gives_generic_500 (s : ServerState E) :
  (forall (d : gmap string pyval) (u t se a dv : pyval) (x : exn) (s2 : ServerState E),
     d !! "user_id" = Some u -> d !! "tab_name" = Some t -> d !! "session_id" = Some se ->
     d !! "app_version" = Some a -> d !! "device_info" = Some dv ->
     load_data [click_event_row u t se a dv (fst (utcnow (env s)))]
               DATASET_ID TABLE_ID (after_clock s) = (Raised x, s2) ->
     fst (track_click (Returned (PDict d)) s)
     = Returned (PDict {[ "error" := PStr "Internal server error" ]}, 500)
     /\ new_logs s2 (snd (track_click (Returned (PDict d)) s))
        = [MkLog ERROR ("Error processing click event: " +:+ exc_str x)])
  /\ (forall (user_id : string) (x : exn),
        query_raises user_id (env s) x ->
        fst (get_user_clicks user_id s)
        = Returned (PDict {[ "error" := PStr "Internal server error" ]}, 500)
        /\ new_logs s (snd (get_user_clicks user_id s))
           = [MkLog ERROR ("Error retrieving click statistics: " +:+ exc_str x)]).
Proof.
  split.
  - intros d u t se a dv x s2 Hu Ht Hse Ha Hdv Hload.
    rewrite (track_click_valid_cases d u t se a dv) by assumption.
    simpl. rewrite Hload. simpl. split; [reflexivity|].
    unfold new_logs. simpl. apply drop_app_length.
  - intros user_id x Hraise. rewrite get_user_clicks_cases. simpl.
    destruct Hraise as [(e1 & H1) | [(job & e1 & e2 & H1 & H2)
                                    | (job & e1 & results & e2 & e3 & H1 & H2 & H3)]].
    + rewrite H1. simpl. split; [reflexivity | apply new_logs_app].
    + rewrite H1, H2. simpl. split; [reflexivity | apply new_logs_app].
    + rewrite H1, H2, H3. simpl. split; [reflexivity | apply new_logs_app].
Qed.

(** C6. The query text handed to the SDK is the same string for every
    [user_id]; the value travels only as the STRING parameter named
    [user_id] of the job configuration. *)
Theorem user_id_is_bound_not_spliced (u1 u2 : string) (s1 s2 : ServerState E) :
  query_texts (new_calls s1 (snd (get_user_clicks u1 s1)))
  = query_texts (new_calls s2 (snd (get_user_clicks u2 s2)))
  /\ query_texts (new_calls s1 (snd (get_user_clicks u1 s1))) = [user_clicks_query]
  /\ (exists rest,
        new_calls s1 (snd (get_user_clicks u1 s1))
        = CallQuery user_clicks_query
            (MkQueryJobConfig [MkScalarQueryParameter "user_id" "STRING" u1]) :: rest).
Proof.
  assert (Hone : forall u (s : ServerState E),
            exists rest,
              new_calls s (snd (get_user_clicks u s))
              = CallQuery user_clicks_query (user_clicks_job_config u) :: rest
              /\ query_texts rest = []).
  { intros u s. rewrite get_user_clicks_cases. simpl.
    destruct (client_query _ _ (env s)) as [[job|x] e1]; simpl.
    - destruct (query_job_result job e1) as [[results|x] e2]; simpl.
      + destruct (iter_rows results e2) as [[rows|x] e3]; simpl;
          rewrite <- app_assoc, new_calls_app; eexists; split; reflexivity.
      + rewrite <- app_assoc, new_calls_app; eexists; split; reflexivity.
    - rewrite new_calls_app. eexists; split; reflexivity. }
  destruct (Hone u1 s1) as (r1 & Hr1 & Hq1).
  destruct (Hone u2 s2) as (r2 & Hr2 & Hq2).
  rewrite Hr1, Hr2. simpl. rewrite Hq1, Hq2.
  repeat split. by exists r1.
Qed.

End GetUserClicks.

(** ** The aggregate query *)

Module SqlFacts.
Import Sql.

Lemma count_tab_where (table : list ClickEvent) (user_id : string) (tab : option string) :
  count_tab tab (where_user_id user_id table) = clicks_of table user_id tab.
Proof.
  unfold count_tab, where_user_id, clicks_of.
  rewrite list_filter_filter. f_equal.
  apply list_filter_iff. intros ev. tauto.
Qed.

Lemma count_tab_pos (tab : option string) (events : list ClickEvent) :
  (0 < count_tab tab events)%nat <-> tab ∈ ev_tab_name <$> events.
Proof.
  unfold count_tab. rewrite list_elem_of_fmap. split.
  - intros Hpos. destruct (filter _ events) as [|ev rest] eqn:Hf; [simpl in Hpos; lia|].
    assert (Hin : ev ∈ filter (fun ev => ev_tab_name ev = tab) events)
      by (rewrite Hf; left).
    apply list_elem_of_filter in Hin as [Htab Hin]. by exists ev.
  - intros (ev & Htab & Hin).
    assert (Hf : ev ∈ filter (fun ev => ev_tab_name ev = tab) events)
      by (apply list_elem_of_filter; auto).
    destruct (filter _ events); [by apply elem_of_nil in Hf | simpl; lia].
Qed.

Lemma elem_of_group_by (events : list ClickEvent) (tab : option string) (n : Z) :
  MkRow tab n ∈ group_by_tab_name events
  <-> n = Z.of_nat (count_tab tab events) /\ 0 < n.
Proof.
  unfold group_by_tab_name. rewrite list_elem_of_fmap. split.
  - intros (tab' & Heq & Hin). injection Heq as -> ->.
    split; [reflexivity|].
    apply elem_of_remove_dups, count_tab_pos in Hin. lia.
  - intros [-> Hpos]. exists tab. split; [reflexivity|].
    apply elem_of_remove_dups, count_tab_pos. lia.
Qed.

Lemma group_by_tabs (events : list ClickEvent) :
  row_tab_name <$> group_by_tab_name events = remove_dups (ev_tab_name <$> events).
Proof.
  unfold group_by_tab_name. rewrite <- list_fmap_compose.
  rewrite <- (list_fmap_id (remove_dups _)) at 2.
  apply list_fmap_ext. reflexivity.
Qed.

Lemma run_user_clicks_perm (table : list ClickEvent) (user_id : string) :
  run_user_clicks table user_id ≡ₚ group_by_tab_name (where_user_id user_id table).
Proof. apply merge_sort_Permutation. Qed.

Lemma run_user_clicks_sorted (table : list ClickEvent) (user_id : string) :
  StronglySorted desc (run_user_clicks table user_id).
Proof. apply StronglySorted_merge_sort; apply _. Qed.

Lemma run_user_clicks_rows (table : list ClickEvent) (user_id : string)
    (tab : option string) (n : Z) :
  MkRow tab n ∈ run_user_clicks table user_id
  <-> n = Z.of_nat (clicks_of table user_id tab) /\ 0 < n.
Proof.
  rewrite run_user_clicks_perm, elem_of_group_by, count_tab_where. reflexivity.
Qed.

Lemma run_user_clicks_nodup (table : list ClickEvent) (user_id : string) :
  NoDup (row_tab_name <$> run_user_clicks table user_id).
Proof.
  rewrite run_user_clicks_perm, group_by_tabs. apply NoDup_remove_dups.
Qed.

End SqlFacts.




Section UserClicks.
Context {E : Type} `{Platform E}.


End UserClicks.

(** ** Timestamps across successive requests *)

Section Timestamps.
Context {E : Type} `{Platform E}.

Lemma loaded_timestamps_app (cs1 cs2 : list Call) :
  loaded_timestamps (cs1 ++ cs2) = loaded_timestamps cs1 ++ loaded_timestamps cs2.
Proof. unfold loaded_timestamps, loads. by rewrite omap_app, flat_map_app. Qed.

Lemma readings_app (cs1 cs2 : list Call) :
  readings (cs1 ++ cs2) = readings cs1 ++ readings cs2.
Proof. apply omap_app. Qed.

(** One request: the handler always answers, and the timestamps it
    hands to the load are the clock readings it took. *)
Lemma track_click_stamps (r : outcome pyval) (s : ServerState E) :
  exists resp new,
    fst (track_click r s) = Returned resp
    /\ calls (snd (track_click r s)) = calls s ++ new
    /\ loaded_timestamps new = readings new
    /\ (snd resp = 200 -> length (readings new) = 1%nat).
Proof.
  assert (Hquiet : forall resp,
            snd resp <> 200 ->
            fst (track_click r s) = Returned resp ->
            calls (snd (track_click r s)) = calls s ->
            exists resp new,
              fst (track_click r s) = Returned resp
              /\ calls (snd (track_click r s)) = calls s ++ new
              /\ loaded_timestamps new = readings new
              /\ (snd resp = 200 -> length (readings new) = 1%nat)).
  { intros resp Hne Hresp Hcalls. exists resp, [].
    rewrite app_nil_r. repeat split; try assumption. intros; contradiction. }
  destruct r as [v|x]; [|by apply (Hquiet (internal_error_body, 500))].
  destruct v as [ |b|n|f|text|ts|items|d];
    try (apply (Hquiet (internal_error_body, 500)); [done | reflexivity | reflexivity]).
  - destruct (track_click_sequence (PStr text) s eq_refl) as (b & _ & Hresp & Hcalls).
    destruct b; eapply Hquiet; try exact Hresp; try exact Hcalls; done.
  - destruct (track_click_sequence (PList items) s eq_refl) as (b & _ & Hresp & Hcalls).
    destruct b; eapply Hquiet; try exact Hresp; try exact Hcalls; done.
  - destruct (decide (has_required_fields d)) as [Hv|Hn].
    + destruct (required_values d Hv) as (u & t & se & a & dv & Hu & Ht & Hse & Ha & Hdv).
      destruct (track_click_valid_calls d u t se a dv s) as (tail & Hcalls & Htail);
        try assumption.
      rewrite (track_click_valid_cases d u t se a dv) in * by assumption.
      simpl in *.
      destruct (load_data _ _ _ (after_clock s)) as [[[]|x] s2]; simpl in *;
        eexists; eexists; (split; [reflexivity|]); (split; [exact Hcalls|]);
        destruct Htail as [-> | ->]; split; reflexivity.
    + rewrite track_click_invalid_dict by exact Hn.
      exists (missing_fields_body, 400), []. simpl. rewrite app_nil_r.
      repeat split. intros; discriminate.
Qed.

Lemma serve_clicks_cons (r : outcome pyval) (rest : list (outcome pyval))
    (s : ServerState E) :
  serve_clicks (r :: rest) s =
  match track_click r s with
  | (Returned resp, s1) =>
      match serve_clicks rest s1 with
      | (Returned resps, s2) => (Returned (resp :: resps), s2)
      | (Raised x, s2) => (Raised x, s2)
      end
  | (Raised x, s1) => (Raised x, s1)
  end.
Proof. reflexivity. Qed.

Lemma serve_clicks_stamps (requests : list (outcome pyval)) (s : ServerState E) :
  exists resps new,
    fst (serve_clicks requests s) = Returned resps
    /\ length resps = length requests
    /\ calls (snd (serve_clicks requests s)) = calls s ++ new
    /\ loaded_timestamps new = readings new
    /\ (Forall (fun resp : http_response => snd resp = 200) resps ->
        length (readings new) = length requests).
Proof.
  revert s. induction requests as [|r rest IH]; intros s.
  - exists [], []. simpl. rewrite app_nil_r. auto.
  - destruct (track_click_stamps r s) as (resp & new1 & Hresp & Hcalls1 & Hst1 & Hok1).
    rewrite serve_clicks_cons.
    destruct (track_click r s) as [[resp'|x] s1]; simpl in Hresp; [|discriminate].
    injection Hresp as ->. simpl in Hcalls1.
    destruct (IH s1) as (resps & new2 & Hresps & Hlen & Hcalls2 & Hst2 & Hok2).
    destruct (serve_clicks rest s1) as [[resps'|x] s2]; simpl in Hresps; [|discriminate].
    injection Hresps as ->. simpl in Hcalls2.
    exists (resp :: resps), (new1 ++ new2). simpl.
    split; [reflexivity|]. split; [by rewrite Hlen|].
    split; [by rewrite Hcalls2, Hcalls1, app_assoc|].
    split; [by rewrite loaded_timestamps_app, readings_app, Hst1, Hst2|].
    intros Hall. inversion Hall as [|? ? Hhead Htail]; subst.
    rewrite readings_app, length_app, Hok1, Hok2 by assumption. reflexivity.
Qed.

(** C8, as the code has it.  Over any sequence of ingest requests
    handled one after another, the timestamps handed to the load are, in
    order, the readings of the wall clock taken by those requests; the
    handler adds no ordering of its own.  So the timestamps are
    non-decreasing whenever the clock readings are.  When every request
    succeeds there is one timestamp per request. *)
Theorem click_timestamps_follow_clock (requests : list (outcome pyval))
    (s : ServerState E) :
  let done := serve_clicks requests s in
  let new := new_calls s (snd done) in
  loaded_timestamps new = readings new
  /\ (exists resps,
        fst done = Returned resps
        /\ length resps = length requests
        /\ (Forall (fun resp : http_response => snd resp = 200) resps ->
            length (loaded_timestamps new) = length requests))
  /\ (Sorted Z.le (readings new) -> Sorted Z.le (loaded_timestamps new)).
Proof.
  intros done new. subst done new.
  destruct (serve_clicks_stamps requests s) as (resps & new & Hresps & Hlen & Hcalls & Hst & Hok).
  unfold new_calls in *. rewrite Hcalls, drop_app_length in *.
  split; [exact Hst|]. split.
  - exists resps. split; [exact Hresps|]. split; [exact Hlen|].
    intros Hall. rewrite Hst. by apply Hok.
  - intros Hsorted. by rewrite Hst.
Qed.

End Timestamps.

(** ** The handlers on the in-memory warehouse *)

Example scenario_post_ok :
  fst (track_click (post payload_home) (Mem.start steady_clock [] None))
  = Returned (success_body, 200).
Proof. vm_compute. reflexivity. Qed.

Example scenario_post_missing :
  fst (track_click (post {[ "user_id" := PStr "u1" ]}) (Mem.start steady_clock [] None))
  = Returned (missing_fields_body, 400).
Proof. vm_compute. reflexivity. Qed.

Example scenario_get :
  fst (bind (serve_clicks [post payload_home; post payload_settings;
                           post payload_home; post payload_home])
            (fun _ => get_user_clicks "u1")
            (Mem.start steady_clock [] None))
  = Returned (click_statistics_body "u1" [MkRow (Some "Home") 3; MkRow (Some "Settings") 1], 200).
Proof. vm_compute. reflexivity. Qed.

Example scenario_get_sample :
  Sql.run_user_clicks sample_table "u1" = [MkRow (Some "Home") 3; MkRow (Some "Settings") 1].
Proof. vm_compute. reflexivity. Qed.

Example scenario_stored_event :
  Mem.table (env (snd (track_click (post payload_home) (Mem.start steady_clock [] None))))
  = [ MkClickEvent (Some "u1") (Some "Home") (Some 1000) (Some "s1") (Some "1.0")
        (Some "iPhone14") ].
Proof. vm_compute. reflexivity. Qed.

Example scenario_array_of_names :
  fst (track_click (Returned (PList (map PStr required_fields)))
                   (Mem.start steady_clock [] None))
  = Returned (internal_error_body, 500).
Proof. vm_compute. reflexivity. Qed.


(** The payload [{"user_id": "u1"}] lacks [tab_name]. *)
Lemma track_click_missing_field_400_witness :
  fst (track_click (Returned (PDict {[ "user_id" := PStr "u1" ]}))
                   (Mem.start steady_clock [] None))
  = Returned (missing_fields_body, 400).
Proof.
  refine (proj1 (track_click_missing_field_400 {[ "user_id" := PStr "u1" ]} "tab_name"
                   (Mem.start steady_clock [] None) _ _)).
  - unfold required_fields. set_solver.
  - reflexivity.
Defined.

(** Both handlers during an outage of the warehouse. *)
Lemma warehouse_failure_gives_generic_500_witness :
  fst (track_click (Returned (PDict payload_home)) (Mem.start steady_clock [] (Some outage)))
  = Returned (internal_error_body, 500)
  /\ fst (get_user_clicks "u1" (Mem.start steady_clock sample_table (Some outage)))
     = Returned (internal_error_body, 500).
Proof.
  split.
  - refine (proj1 (proj1 (warehouse_failure_gives_generic_500
                            (Mem.start steady_clock [] (Some outage)))
                     payload_home (PStr "u1") (PStr "Home") (PStr "s1") (PStr "1.0")
                     (PStr "iPhone14") outage _
                     eq_refl eq_refl eq_refl eq_refl eq_refl _)).
    vm_compute. reflexivity.
  - refine (proj1 (proj2 (warehouse_failure_gives_generic_500
                            (Mem.start steady_clock sample_table (Some outage)))
                     "u1" outage _)).
    left. eexists. reflexivity.
Defined.


(** Two requests under a clock that advances. *)
Lemma click_timestamps_follow_clock_witness :
  let s := Mem.start steady_clock [] None in
  let done := serve_clicks [post payload_home; post payload_settings] s in
  loaded_timestamps (new_calls s (snd done)) = readings (new_calls s (snd done))
  /\ Sorted Z.le (loaded_timestamps (new_calls s (snd done))).
Proof.
  intros s done.
  destruct (click_timestamps_follow_clock [post payload_home; post payload_settings] s)
    as (Heq & _ & Hsorted).
  split; [exact Heq|]. apply Hsorted.
  assert (readings (new_calls s (snd (serve_clicks [post payload_home; post payload_settings] s)))
          = [1000; 1001]) as -> by (vm_compute; reflexivity).
  repeat constructor. lia.
Defined.

(** An extra key [campaign] next to the five required ones. *)
Lemma track_click_reads_required_fields_only_witness :
  track_click (Returned (PDict payload_home)) (Mem.start steady_clock [] None)
  = track_click (Returned (PDict (<[ "campaign" := PInt 7 ]> payload_home)))
                (Mem.start steady_clock [] None).
Proof.
  refine (proj1 (track_click_reads_required_fields_only payload_home
                   (<[ "campaign" := PInt 7 ]> payload_home)
                   (Mem.start steady_clock [] None) _)).
  intros k Hk.
  repeat (apply elem_of_cons in Hk as [-> | Hk]; [reflexivity|]).
  by apply elem_of_nil in Hk.
Defined.

(** Against C8 as stated: two ingest calls, both answered 200, on a
    machine whose wall clock is set back between them; the second event
    is stored with the smaller timestamp. *)
Lemma timestamps_decrease_when_clock_steps_back :
  let done := serve_clicks [post payload_home; post payload_settings]
                           (Mem.start stepped_back_clock [] None) in
  fst done = Returned [(success_body, 200); (success_body, 200)]
  /\ loaded_timestamps (calls (snd done)) = [10; 5]
  /\ ev_click_timestamp <$> Mem.table (env (snd done)) = [Some 10; Some 5]
  /\ ~ Sorted Z.le (loaded_timestamps (calls (snd done))).
Proof.
  assert (Hst : loaded_timestamps
                  (calls (snd (serve_clicks [post payload_home; post payload_settings]
                                 (Mem.start stepped_back_clock [] None)))) = [10; 5])
    by (vm_compute; reflexivity).
  cbv zeta. split; [vm_compute; reflexivity|].
  split; [exact Hst|]. split; [vm_compute; reflexivity|].
  rewrite Hst. intros Hsorted.
  inversion Hsorted as [|? ? _ Hhd]; subst.
  inversion Hhd as [|? ? Hle]; subst. lia.
Qed.


(** Against C9 as stated: the body [[]] parses to a list, not a
    mapping, and the answer is 400, not 500. *)
Lemma empty_array_body_gets_400 :
  fst (track_click (Returned (PList [])) (Mem.start steady_clock [] None))
  = Returned (missing_fields_body, 400)
  /\ ~ (forall v : pyval,
          (forall d, v <> PDict d) ->
          fst (track_click (Returned v) (Mem.start steady_clock [] None))
          = Returned (internal_error_body, 500)).
Proof.
  split; [reflexivity|].
  intros Hall. specialize (Hall (PList []) ltac:(discriminate)).
  cbv in Hall. discriminate.
Qed.

(** * Further properties of the code *)

(** ** The constructor of the client *)

Section InitFacts.
Context {E : Type} `{Auth E}.

Lemma new_init_calls_app (s : InitState E) (e : E) (cs : list InitCall)
    (ls : list LogRecord) :
  new_init_calls s (MkInit e (init_calls s ++ cs) ls) = cs.
Proof. unfold new_init_calls. simpl. apply drop_app_length. Qed.

Lemma new_init_logs_app (s : InitState E) (e : E) (cs : list InitCall)
    (ls : list LogRecord) :
  new_init_logs s (MkInit e cs (init_logs s ++ ls)) = ls.
Proof. unfold new_init_logs. simpl. apply drop_app_length. Qed.

Lemma new_init_logs_same (s : InitState E) (e : E) (cs : list InitCall) :
  new_init_logs s (MkInit e cs (init_logs s)) = [].
Proof. unfold new_init_logs. simpl. apply drop_all. Qed.

(** X1. An empty [credentials_path] is treated like an absent one: the
    constructor behaves exactly as without a path, makes a single SDK
    call, [bigquery.Client(project=...)] without credentials, and never
    reads a key file.  The module-level [bq_client] is built that way. *)
Theorem init_empty_path_uses_default_credentials (project_id : string)
    (s : InitState E) :
  BigQueryClient_init project_id (Some "") s = BigQueryClient_init project_id None s
  /\ new_init_calls s (snd (BigQueryClient_init project_id None s))
     = [CallClient false project_id]
  /\ fst (BigQueryClient_init project_id None s)
     = fst (bigquery_Client None project_id (init_env s))
  /\ new_init_calls s (snd (bq_client s)) = [CallClient false "your-project-id"].
Proof.
  assert (Hnone : forall p,
            new_init_calls s (snd (BigQueryClient_init p None s)) = [CallClient false p]
            /\ fst (BigQueryClient_init p None s)
               = fst (bigquery_Client None p (init_env s))).
  { intros p. unfold BigQueryClient_init, init_attempt.
    destruct (bigquery_Client None p (init_env s)) as [[c|x] e1]; simpl;
      rewrite new_init_calls_app; auto. }
  split; [reflexivity|].
  split; [apply Hnone|]. split; [apply Hnone|].
  apply (Hnone PROJECT_ID).
Qed.

(** X2. With a non-empty [credentials_path] the key file is read first,
    exactly once.  When that read raises, no client is constructed and
    the same exception leaves the constructor; when it returns, the
    client is constructed with those credentials and the given project,
    and the constructor's outcome is the outcome of that construction. *)
Theorem init_reads_key_file_before_client (project_id path : string)
    (s : InitState E) :
  path <> "" ->
  let done := BigQueryClient_init project_id (Some path) s in
  match from_service_account_file path (init_env s) with
  | (Raised x, e1) =>
      fst done = Raised x
      /\ init_env (snd done) = e1
      /\ new_init_calls s (snd done) = [CallFromServiceAccountFile path]
  | (Returned credentials, e1) =>
      fst done = fst (bigquery_Client (Some credentials) project_id e1)
      /\ init_env (snd done) = snd (bigquery_Client (Some credentials) project_id e1)
      /\ new_init_calls s (snd done)
         = [CallFromServiceAccountFile path; CallClient true project_id]
  end.
Proof.
  intros Hpath done. subst done.
  destruct path as [|c rest]; [congruence|].
  unfold BigQueryClient_init, init_attempt.
  destruct (from_service_account_file (String c rest) (init_env s)) as [[cr|x] e1].
  - destruct (bigquery_Client (Some cr) project_id e1) as [[cl|x] e2]; simpl;
      rewrite <- app_assoc, new_init_calls_app; auto.
  - simpl. rewrite new_init_calls_app. auto.
Qed.

(** X3. However the constructor is called, a failure is logged exactly
    once, as an ERROR record that carries the text of the exception it
    re-raises; a successful construction logs nothing. *)
Theorem init_logs_failure_once (project_id : string) (credentials_path : option string)
    (s : InitState E) :
  let done := BigQueryClient_init project_id credentials_path s in
  match fst done with
  | Raised x =>
      new_init_logs s (snd done)
      = [MkLog ERROR ("Failed to initialize BigQuery client: " +:+ exc_str x)]
  | Returned _ => new_init_logs s (snd done) = []
  end.
Proof.
  unfold BigQueryClient_init, init_attempt.
  destruct credentials_path as [[|c rest]|].
  - destruct (bigquery_Client None project_id (init_env s)) as [[cl|x] e1]; simpl.
    + apply new_init_logs_same.
    + apply new_init_logs_app.
  - destruct (from_service_account_file _ (init_env s)) as [[cr|x] e1].
    + destruct (bigquery_Client (Some cr) project_id e1) as [[cl|x] e2]; simpl.
      * apply new_init_logs_same.
      * apply new_init_logs_app.
    + simpl. apply new_init_logs_app.
  - destruct (bigquery_Client None project_id (init_env s)) as [[cl|x] e1]; simpl.
    + apply new_init_logs_same.
    + apply new_init_logs_app.
Qed.

End InitFacts.

(** A key file that does not exist: the read fails, no client is made. *)
Lemma init_reads_key_file_before_client_witness :
  fst (BigQueryClient_init "p" (Some "/etc/keys/sa.json") (Host.start [] true))
  = Raised (Exn "FileNotFoundError"
              "[Errno 2] No such file or directory: '/etc/keys/sa.json'")
  /\ init_calls (snd (BigQueryClient_init "p" (Some "/etc/keys/sa.json") (Host.start [] true)))
     = [CallFromServiceAccountFile "/etc/keys/sa.json"].
Proof.
  pose proof (init_reads_key_file_before_client "p" "/etc/keys/sa.json"
                (Host.start [] true) ltac:(discriminate)) as Hx.
  simpl in Hx. destruct Hx as (Hr & _ & Hc). split; [exact Hr | exact Hc].
Defined.

(** ** More on [BigQueryClient.load_data] *)

Section LoadDataLog.
Context {E : Type} `{Platform E}.

(** X4. Every call of [load_data] writes exactly one log record, and the
    record mirrors the outcome: INFO with the number of rows and the
    table when the call returns, ERROR with the text of the exception
    when it raises.  The call neither reads the clock nor sends a
    query. *)
Theorem load_data_logs_its_outcome (data : DataFrame) (dataset_id table_id : string)
    (s : ServerState E) :
  let done := load_data data dataset_id table_id s in
  match fst done with
  | Returned _ =>
      new_logs s (snd done)
      = [MkLog INFO ("Successfully loaded " +:+ pretty (length data) +:+ " rows into "
                     +:+ PROJECT_ID +:+ "." +:+ dataset_id +:+ "." +:+ table_id)]
  | Raised x =>
      new_logs s (snd done)
      = [MkLog ERROR ("Failed to load data to BigQuery: " +:+ exc_str x)]
  end
  /\ readings (new_calls s (snd done)) = []
  /\ query_texts (new_calls s (snd done)) = [].
Proof.
  intros done. subst done. rewrite load_data_cases. simpl.
  destruct (load_table_from_dataframe _ _ _ (env s)) as [[job|x] e1].
  - destruct (load_job_result job e1) as [[[]|x] e2]; simpl;
      rewrite <- app_assoc, new_calls_app, new_logs_app; auto.
  - simpl. rewrite new_calls_app, new_logs_app. auto.
Qed.

End LoadDataLog.

(** ** More on the ingest handler *)

Section TrackClickFacts.
Context {E : Type} `{Platform E}.

(** Every request takes one of three ways through [track_click]. *)
Lemma track_click_classify (r : outcome pyval) (s : ServerState E) :
  (track_click r s = (Returned (missing_fields_body, 400), s)
   /\ (exists v, r = Returned v /\ validate_click_data v = Returned false))
  \/ (exists x,
        track_click r s
        = (Returned (internal_error_body, 500), log_also (click_failed_log x) s)
        /\ forall d, r = Returned (PDict d) -> False)
  \/ (exists d u t se a dv,
        r = Returned (PDict d)
        /\ d !! "user_id" = Some u /\ d !! "tab_name" = Some t
        /\ d !! "session_id" = Some se /\ d !! "app_version" = Some a
        /\ d !! "device_info" = Some dv).
Proof.
  destruct r as [v|x].
  2:{ right; left. exists x. split; [apply track_click_raised | discriminate]. }
  assert (Hseq : is_sequence v = true ->
            (track_click (Returned v) s = (Returned (missing_fields_body, 400), s)
             /\ (exists v', Returned v = Returned v'
                            /\ validate_click_data v' = Returned false))
            \/ (exists x,
                  track_click (Returned v) s
                  = (Returned (internal_error_body, 500), log_also (click_failed_log x) s)
                  /\ forall d, Returned v = Returned (PDict d) -> False)).
  { intros Hs. destruct (all_fields_in_sequence required_fields v Hs) as [b Hb].
    change (validate_click_data v = Returned b) in Hb.
    rewrite track_click_returned, Hb. destruct b.
    - right. destruct v; try discriminate; eexists; (split; [reflexivity | discriminate]).
    - left. split; [reflexivity|]. by exists v. }
  destruct v as [ |b|n|f|text|ts|items|d];
    try (right; left; eexists; split;
         [by apply track_click_scalar | discriminate]).
  - destruct (Hseq eq_refl) as [Ha | Hb]; [by left | by right; left].
  - destruct (Hseq eq_refl) as [Ha | Hb]; [by left | by right; left].
  - destruct (decide (has_required_fields d)) as [Hv|Hn].
    + right; right.
      destruct (required_values d Hv) as (u & t & se & a & dv & Hu & Ht & Hse & Ha & Hdv).
      exists d, u, t, se, a, dv. auto 10.
    + left. split; [by apply track_click_invalid_dict|].
      exists (PDict d). split; [reflexivity | by apply validate_dict_false].
Qed.

(** X5. The handler never lets an exception escape, whatever the
    request and whatever the platform does: it answers with one of
    exactly three responses, 200 with the success body, 400 with the
    missing-fields body, or 500 with the generic error body. *)
Theorem track_click_always_answers (r : outcome pyval) (s : ServerState E) :
  fst (track_click r s) = Returned (success_body, 200)
  \/ fst (track_click r s) = Returned (missing_fields_body, 400)
  \/ fst (track_click r s) = Returned (internal_error_body, 500).
Proof.
  destruct (track_click_classify r s)
    as [[Heq _] | [(x & Heq & _) | (d & u & t & se & a & dv & -> & Hu & Ht & Hse & Ha & Hdv)]].
  - rewrite Heq. auto.
  - rewrite Heq. auto.
  - rewrite (track_click_valid_cases d u t se a dv) by assumption. simpl.
    destruct (load_data _ _ _ (after_clock s)) as [[[]|x] s2]; auto.
Qed.

(** X6. A 200 is never sent on trust.  When the handler answers 200,
    the body was a JSON object with the five fields, the load job for
    its row was accepted by the SDK, and the job's [result()] had
    returned before the response was built; the state the handler
    leaves is the one after that wait, plus the INFO record. *)
Theorem track_click_200_means_loaded (r : outcome pyval) (s : ServerState E) :
  fst (track_click r s) = Returned (success_body, 200) ->
  exists d u t se a dv job e1 e2,
    r = Returned (PDict d)
    /\ d !! "user_id" = Some u /\ d !! "tab_name" = Some t
    /\ d !! "session_id" = Some se /\ d !! "app_version" = Some a
    /\ d !! "device_info" = Some dv
    /\ load_table_from_dataframe
         [click_event_row u t se a dv (fst (utcnow (env s)))]
         "your-project-id.analytics_dataset.tab_clicks" load_job_config
         (snd (utcnow (env s))) = (Returned job, e1)
    /\ load_job_result job e1 = (Returned tt, e2)
    /\ env (snd (track_click r s)) = e2.
Proof.
  intros H200.
  destruct (track_click_classify r s)
    as [[Heq _] | [(x & Heq & _) | (d & u & t & se & a & dv & -> & Hu & Ht & Hse & Ha & Hdv)]].
  - rewrite Heq in H200. simpl in H200. congruence.
  - rewrite Heq in H200. simpl in H200. congruence.
  - rewrite (track_click_valid_cases d u t se a dv) in * by assumption.
    simpl in *. rewrite load_data_cases in *. simpl in *.
    change (table_ref_of DATASET_ID TABLE_ID)
      with "your-project-id.analytics_dataset.tab_clicks" in *.
    destruct (load_table_from_dataframe _ _ _ _) as [[job|x] e1] eqn:Hsub;
      [|simpl in H200; congruence].
    destruct (load_job_result job e1) as [[[]|x] e2] eqn:Hres;
      [|simpl in H200; congruence].
    exists d, u, t, se, a, dv, job, e1, e2. simpl. auto 12.
Qed.

(** X7. The handler answers 400 exactly when the validator returns
    False on the parsed body, and then it leaves no trace: the clock is
    not read, the warehouse is not called and nothing is logged. *)
Theorem track_click_400_leaves_no_trace (r : outcome pyval) (s : ServerState E) :
  (fst (track_click r s) = Returned (missing_fields_body, 400)
   <-> exists v, r = Returned v /\ validate_click_data v = Returned false)
  /\ (fst (track_click r s) = Returned (missing_fields_body, 400)
      -> snd (track_click r s) = s).
Proof.
  destruct (track_click_classify r s)
    as [[Heq Hv] | [(x & Heq & Hnd) | (d & u & t & se & a & dv & -> & Hu & Ht & Hse & Ha & Hdv)]].
  - rewrite Heq. simpl. split; [split; auto | auto].
  - rewrite Heq. simpl. split; [split|]; try congruence.
    intros (v & -> & Hfalse). exfalso.
    rewrite track_click_returned, Hfalse in Heq. congruence.
  - assert (Hvalid : validate_click_data (PDict d) = Returned true).
    { apply validate_dict_true. unfold has_required_fields, required_fields.
      repeat constructor; eauto. }
    rewrite (track_click_valid_cases d u t se a dv) by assumption. simpl.
    destruct (load_data _ _ _ (after_clock s)) as [[[]|x] s2]; simpl.
    + split; [split|]; try congruence.
      intros (v & Hv & Hfalse). injection Hv as <-. congruence.
    + split; [split|]; try congruence.
      intros (v & Hv & Hfalse). injection Hv as <-. congruence.
Qed.


(** X8. What the handler logs follows from its answer.  With a 200 the
    only new record is the INFO record of [load_data], which always
    reports 1 row and the configured table.  With a 400 nothing is
    logged.  With a 500 every new record is an ERROR record and the last
    one is the handler's own, "Error processing click event: ...". *)
Theorem track_click_log_follows_status (r : outcome pyval) (s : ServerState E) :
  let done := track_click r s in
  match fst done with
  | Returned (_, status) =>
      if (status =? 200)%Z then
        new_logs s (snd done)
        = [MkLog INFO
             "Successfully loaded 1 rows into your-project-id.analytics_dataset.tab_clicks"]
      else if (status =? 400)%Z then
        new_logs s (snd done) = []
      else
        Forall (fun l => log_level l = ERROR) (new_logs s (snd done))
        /\ exists x,
             last (new_logs s (snd done))
             = Some (MkLog ERROR ("Error processing click event: " +:+ exc_str x))
  | Raised _ => False
  end.
Proof.
  intros done. subst done.
  destruct (track_click_classify r s)
    as [[Heq _] | [(x & Heq & _) | (d & u & t & se & a & dv & -> & Hu & Ht & Hse & Ha & Hdv)]].
  - rewrite Heq. simpl. unfold new_logs. apply drop_all.
  - rewrite Heq. simpl. unfold log_also. rewrite new_logs_app.
    split; [repeat constructor | by exists x].
  - rewrite (track_click_valid_cases d u t se a dv) by assumption. simpl.
    rewrite load_data_cases. simpl.
    destruct (load_table_from_dataframe _ _ _ _) as [[job|x] e1].
    + destruct (load_job_result job e1) as [[[]|x] e2]; simpl.
      * apply new_logs_app.
      * unfold log_also. simpl. rewrite <- (app_assoc (logs s)), new_logs_app. simpl.
        split; [repeat constructor | by exists x].
    + simpl. unfold log_also. simpl. rewrite <- (app_assoc (logs s)), new_logs_app. simpl.
      split; [repeat constructor | by exists x].
Qed.

(** X9. A failed load is logged twice with the same exception text,
    first by [load_data] and then by the handler, and it is not retried:
    the request has submitted exactly one load job. *)
Theorem failed_load_logged_twice_not_retried (d : gmap string pyval)
    (u t se a dv : pyval) (x : exn) (s : ServerState E) :
  d !! "user_id" = Some u -> d !! "tab_name" = Some t -> d !! "session_id" = Some se ->
  d !! "app_version" = Some a -> d !! "device_info" = Some dv ->
  fst (load_data [click_event_row u t se a dv (fst (utcnow (env s)))]
                 DATASET_ID TABLE_ID (after_clock s)) = Raised x ->
  let done := track_click (Returned (PDict d)) s in
  new_logs s (snd done)
  = [MkLog ERROR ("Failed to load data to BigQuery: " +:+ exc_str x);
     MkLog ERROR ("Error processing click event: " +:+ exc_str x)]
  /\ length (submissions (new_calls s (snd done))) = 1%nat.
Proof.
  intros Hu Ht Hse Ha Hdv Hload done. subst done.
  destruct (track_click_valid_history d u t se a dv s) as (tail & Hnew & Htail);
    try assumption.
  split.
  - rewrite (track_click_valid_cases d u t se a dv) by assumption. simpl.
    rewrite load_data_cases in *. simpl in *.
    destruct (load_table_from_dataframe _ _ _ _) as [[job|y] e1].
    + destruct (load_job_result job e1) as [[[]|y] e2]; simpl in *; [congruence|].
      injection Hload as ->.
      unfold log_also. simpl. rewrite <- (app_assoc (logs s)). apply new_logs_app.
    + simpl in *. injection Hload as ->.
      unfold log_also. simpl. rewrite <- (app_assoc (logs s)). apply new_logs_app.
  - rewrite Hnew. destruct Htail as [-> | ->]; reflexivity.
Qed.

(** X10. One request costs the warehouse at most one load job and the
    clock at most one reading, and it never sends a query.  A load job
    is submitted exactly when the body is a JSON object with the five
    required fields. *)
Theorem track_click_at_most_one_job (r : outcome pyval) (s : ServerState E) :
  let new := new_calls s (snd (track_click r s)) in
  (length (submissions new) <= 1)%nat
  /\ length (readings new) = length (submissions new)
  /\ length (loads new) = length (submissions new)
  /\ query_texts new = []
  /\ (length (submissions new) = 1%nat
      <-> exists d, r = Returned (PDict d) /\ has_required_fields d).
Proof.
  intros new. subst new.
  destruct (track_click_classify r s)
    as [[Heq (v & -> & Hfalse)] | [(x & Heq & Hnd)
        | (d & u & t & se & a & dv & -> & Hu & Ht & Hse & Ha & Hdv)]].
  - rewrite Heq. simpl. rewrite new_calls_same. simpl.
    repeat split; try lia; try discriminate.
    intros (d & Hd & Hvalid). injection Hd as ->.
    apply validate_dict_true in Hvalid. congruence.
  - rewrite Heq. simpl. unfold log_also, new_calls. simpl. rewrite drop_all. simpl.
    repeat split; try lia; try discriminate.
    intros (d & Hd & _). exfalso. eauto.
  - destruct (track_click_valid_history d u t se a dv s) as (tail & Hnew & Htail);
      try assumption.
    rewrite Hnew.
    assert (Hvalid : has_required_fields d).
    { unfold has_required_fields, required_fields. repeat constructor; eauto. }
    destruct Htail as [-> | ->]; simpl; repeat split; eauto.
Qed.

(** X11. Writes and reads address the same table: the load job of a
    valid request is submitted for the very table that the aggregate
    query names in its FROM clause. *)
Theorem ingest_and_query_share_the_table (d : gmap string pyval) (s : ServerState E) :
  has_required_fields d ->
  exists data table_ref cfg,
    submissions (new_calls s (snd (track_click (Returned (PDict d)) s)))
    = [(data, table_ref, cfg)]
    /\ is_substring ("FROM `" +:+ table_ref +:+ "`" +:+ nl) user_clicks_query = true.
Proof.
  intros Hvalid.
  destruct (required_values d Hvalid) as (u & t & se & a & dv & Hu & Ht & Hse & Ha & Hdv).
  destruct (track_click_valid_history d u t se a dv s) as (tail & Hnew & Htail);
    try assumption.
  exists [click_event_row u t se a dv (fst (utcnow (env s)))],
         (table_ref_of DATASET_ID TABLE_ID), load_job_config.
  split; [|vm_compute; reflexivity].
  rewrite Hnew. destruct Htail as [-> | ->]; reflexivity.
Qed.

End TrackClickFacts.

(** The scenario payload while the warehouse is out. *)
Lemma failed_load_logged_twice_not_retried_witness :
  logs (snd (track_click (Returned (PDict payload_home))
                         (Mem.start steady_clock [] (Some outage))))
  = [MkLog ERROR "Failed to load data to BigQuery: 503 connection refused by backend";
     MkLog ERROR "Error processing click event: 503 connection refused by backend"].
Proof.
  refine (proj1 (failed_load_logged_twice_not_retried payload_home
                   (PStr "u1") (PStr "Home") (PStr "s1") (PStr "1.0") (PStr "iPhone14")
                   outage (Mem.start steady_clock [] (Some outage))
                   eq_refl eq_refl eq_refl eq_refl eq_refl _)).
  vm_compute. reflexivity.
Defined.

(** A request answered 200 on the in-memory warehouse. *)
Lemma track_click_200_means_loaded_witness :
  exists d, post payload_home = Returned (PDict d) /\ d !! "user_id" = Some (PStr "u1").
Proof.
  destruct (track_click_200_means_loaded (post payload_home)
              (Mem.start steady_clock [] None))
    as (d & u & t & se & a & dv & job & e1 & e2 & Hr & Hu & _).
  - vm_compute. reflexivity.
  - exists d. split; [exact Hr|].
    injection Hr as <-. reflexivity.
Defined.

(** The scenario payload is valid. *)
Lemma ingest_and_query_share_the_table_witness :
  exists data cfg,
    submissions (calls (snd (track_click (Returned (PDict payload_home))
                                         (Mem.start steady_clock [] None))))
    = [(data, "your-project-id.analytics_dataset.tab_clicks", cfg)].
Proof.
  destruct (ingest_and_query_share_the_table payload_home (Mem.start steady_clock [] None))
    as (data & table_ref & cfg & Hsub & _).
  - unfold has_required_fields, required_fields.
    repeat constructor; eexists; reflexivity.
  - exists [click_event_row (PStr "u1") (PStr "Home") (PStr "s1") (PStr "1.0")
              (PStr "iPhone14") 1000], load_job_config.
    vm_compute. reflexivity.
Defined.

(** ** More on the validator *)

(** X12. The validator raises exactly on a value that has no membership
    test (None, a bool, a number), and what it raises is the TypeError
    of the first test; on a dict, a list or a str it always returns a
    boolean. *)
Theorem validate_click_data_raises_on_scalars (v : pyval) :
  match validate_click_data v with
  | Raised x =>
      is_scalar v = true
      /\ x = Exn "TypeError" ("argument of type '" +:+ type_name v +:+ "' is not iterable")
  | Returned _ => is_scalar v = false
  end.
Proof.
  destruct v as [ |b|n|f|text|ts|items|d]; try (split; reflexivity).
  - destruct (all_fields_in_sequence required_fields (PStr text) eq_refl) as [b Hb].
    unfold validate_click_data. rewrite Hb. reflexivity.
  - destruct (all_fields_in_sequence required_fields (PList items) eq_refl) as [b Hb].
    unfold validate_click_data. rewrite Hb. reflexivity.
  - destruct (decide (has_required_fields d)) as [Hv|Hn].
    + apply validate_dict_true in Hv. rewrite Hv. reflexivity.
    + apply validate_dict_false in Hn. rewrite Hn. reflexivity.
Qed.

(** ** More on the read-aggregate handler *)

Section GetUserClicksFacts.
Context {E : Type} `{Platform E}.

(** X13. The read handler never lets an exception escape and knows two
    answers only.  Either it answers 200 with the caller's [user_id] and
    the rows of the warehouse, and logs nothing; or it answers 500 with
    the generic body and logs one ERROR record.  There is no 400 and no
    404: any [user_id] is accepted. *)
Theorem get_user_clicks_always_answers (user_id : string) (s : ServerState E) :
  let done := get_user_clicks user_id s in
  (exists rows,
     fst done = Returned (click_statistics_body user_id rows, 200)
     /\ logs (snd done) = logs s)
  \/ (exists x,
        fst done = Returned (internal_error_body, 500)
        /\ new_logs s (snd done)
           = [MkLog ERROR ("Error retrieving click statistics: " +:+ exc_str x)]).
Proof.
  intros done. subst done. rewrite get_user_clicks_cases. simpl.
  destruct (client_query _ _ (env s)) as [[job|x] e1]; simpl.
  - destruct (query_job_result job e1) as [[results|x] e2]; simpl.
    + destruct (iter_rows results e2) as [[rows|x] e3]; simpl.
      * left. by exists rows.
      * right. exists x. split; [reflexivity | apply new_logs_app].
    + right. exists x. split; [reflexivity | apply new_logs_app].
  - right. exists x. split; [reflexivity | apply new_logs_app].
Qed.

(** X14. The read handler only reads.  Its SDK calls are an initial part
    of the sequence query, result, iteration, stopping at the first step
    that raises; it never enters [load_data], never submits a load job
    and never reads the clock.  A 200 is sent only after all three steps
    were made. *)
Theorem get_user_clicks_only_queries (user_id : string) (s : ServerState E) :
  let done := get_user_clicks user_id s in
  let new := new_calls s (snd done) in
  let steps := [ CallQuery user_clicks_query (user_clicks_job_config user_id);
                 CallQueryJobResult; CallIterRows ] in
  (new = take 1 steps \/ new = take 2 steps \/ new = steps)
  /\ loads new = [] /\ submissions new = [] /\ readings new = []
  /\ (forall body, fst done = Returned (body, 200) -> new = steps).
Proof.
  intros done new steps. subst done new steps.
  rewrite get_user_clicks_cases. simpl.
  destruct (client_query _ _ (env s)) as [[job|x] e1]; simpl.
  - destruct (query_job_result job e1) as [[results|x] e2]; simpl.
    + destruct (iter_rows results e2) as [[rows|x] e3]; simpl;
        rewrite <- app_assoc, new_calls_app; simpl; auto 10.
    + rewrite <- app_assoc, new_calls_app; simpl.
      repeat split; auto. intros body Hb. congruence.
  - rewrite new_calls_app. simpl.
    repeat split; auto. intros body Hb. congruence.
Qed.

End GetUserClicksFacts.

(** ** The response body as an encoding *)

Lemma option_str_inj (a b : option string) : option_str a = option_str b -> a = b.
Proof. destruct a, b; simpl; congruence. Qed.

Lemma click_stat_inj (r1 r2 : Row) : click_stat r1 = click_stat r2 -> r1 = r2.
Proof.
  intros Heq.
  assert (Htab := f_equal (fun v => getitem v "tab_name") Heq).
  assert (Hcnt := f_equal (fun v => getitem v "click_count") Heq).
  cbv beta in Htab, Hcnt. unfold click_stat, getitem in Htab, Hcnt.
  rewrite !lookup_insert_eq in Htab.
  rewrite !lookup_insert_ne, !lookup_singleton_eq in Hcnt by discriminate.
  destruct r1 as [tab1 n1], r2 as [tab2 n2]. cbn [row_tab_name row_click_count] in *.
  assert (option_str tab1 = option_str tab2) as Ht by congruence.
  apply option_str_inj in Ht. congruence.
Qed.

(** X15. The 200 body loses nothing: two bodies are equal only when
    they carry the same [user_id] and the same rows in the same order.
    In particular a NULL tab_name (JSON null) is never confused with a
    tab named by a string, and the order of the rows survives. *)
Theorem click_statistics_body_is_faithful (u1 u2 : string) (rows1 rows2 : list Row) :
  click_statistics_body u1 rows1 = click_statistics_body u2 rows2 ->
  u1 = u2 /\ rows1 = rows2.
Proof.
  intros Heq.
  assert (Hu := f_equal (fun v => getitem v "user_id") Heq).
  assert (Hs := f_equal (fun v => getitem v "click_statistics") Heq).
  cbv beta in Hu, Hs. unfold click_statistics_body, getitem in Hu, Hs.
  rewrite !lookup_insert_eq in Hu.
  rewrite !lookup_insert_ne, !lookup_singleton_eq in Hs by discriminate.
  split; [congruence|].
  assert (map click_stat rows1 = map click_stat rows2) as Hm by congruence.
  clear -Hm. rename Hm into Hs.
  revert rows2 Hs. induction rows1 as [|r1 rest1 IH]; intros [|r2 rest2] Hs;
    simpl in Hs; try discriminate; [reflexivity|].
  assert (Hr : click_stat r1 = click_stat r2) by congruence.
  assert (Hrest : map click_stat rest1 = map click_stat rest2) by congruence.
  f_equal; [by apply click_stat_inj | by apply IH].
Qed.

(** Read back from a body with a NULL tab. *)
Lemma click_statistics_body_is_faithful_witness :
  "u1" = "u1" /\ [MkRow (Some "Home") 3; MkRow None 1] = [MkRow (Some "Home") 3; MkRow None 1].
Proof.
  apply (click_statistics_body_is_faithful "u1" "u1"
           [MkRow (Some "Home") 3; MkRow None 1] [MkRow (Some "Home") 3; MkRow None 1]).
  reflexivity.
Defined.

(** ** More on the aggregate query *)

Lemma total_clicks_perm (rows1 rows2 : list Row) :
  rows1 ≡ₚ rows2 -> total_clicks rows1 = total_clicks rows2.
Proof.
  induction 1 as [|r l1 l2 _ IH|r1 r2 l|l1 l2 l3 _ IH1 _ IH2]; simpl; lia.
Qed.

Lemma length_filter_split {A} (P Q : A -> Prop)
    `{!forall x, Decision (P x)} `{!forall x, Decision (Q x)} (l : list A) :
  (forall x, P x -> Q x -> False) ->
  length (filter (fun x => P x \/ Q x) l)
  = (length (filter P l) + length (filter Q l))%nat.
Proof.
  intros Hdisj. induction l as [|x l IH]; [reflexivity|].
  rewrite !filter_cons.
  destruct (decide (P x)) as [Hp|Hp], (decide (Q x)) as [Hq|Hq].
  - destruct (Hdisj x Hp Hq).
  - rewrite decide_True by auto. simpl. lia.
  - rewrite decide_True by auto. simpl. lia.
  - rewrite decide_False by tauto. exact IH.
Qed.

Lemma total_clicks_cons (r : Row) (rows : list Row) :
  total_clicks (r :: rows) = row_click_count r + total_clicks rows.
Proof. reflexivity. Qed.

Lemma filter_all {A} (P : A -> Prop) `{!forall x, Decision (P x)} (l : list A) :
  Forall P l -> filter P l = l.
Proof.
  induction 1 as [|x l Hx _ IH]; [reflexivity|].
  by rewrite filter_cons_True, IH.
Qed.

Lemma filter_none {A} (P : A -> Prop) `{!forall x, Decision (P x)} (l : list A) :
  Forall (fun x => ~ P x) l -> filter P l = [].
Proof.
  induction 1 as [|x l Hx _ IH]; [reflexivity|].
  by rewrite filter_cons_False.
Qed.

Lemma count_over_tabs (tabs : list (option string)) (events : list ClickEvent) :
  NoDup tabs ->
  total_clicks ((fun tab => MkRow tab (Z.of_nat (Sql.count_tab tab events))) <$> tabs)
  = Z.of_nat (length (filter (fun ev => ev_tab_name ev ∈ tabs) events)).
Proof.
  induction 1 as [|tab tabs Hnotin Hnodup IH].
  - rewrite filter_none; [reflexivity|].
    apply Forall_forall. intros ev _. apply not_elem_of_nil.
  - rewrite fmap_cons, total_clicks_cons, IH. cbn [row_click_count].
    unfold Sql.count_tab.
    rewrite (list_filter_iff (fun ev => ev_tab_name ev ∈ tab :: tabs)
               (fun ev => ev_tab_name ev = tab \/ ev_tab_name ev ∈ tabs))
      by (intros ev; apply elem_of_cons).
    rewrite length_filter_split; [lia|].
    intros ev Heq Hin. apply Hnotin. by rewrite <- Heq.
Qed.

(** X16. Grouping loses no click and counts none twice: the
    [click_count] column of the answer adds up to the number of stored
    events of that user.  Events without a tab_name are counted too, in
    a group of their own. *)
Theorem click_counts_add_up (table : list ClickEvent) (user_id : string) :
  total_clicks (Sql.run_user_clicks table user_id)
  = Z.of_nat (length (filter (fun ev => ev_user_id ev = Some user_id) table)).
Proof.
  rewrite (total_clicks_perm _ _ (SqlFacts.run_user_clicks_perm table user_id)).
  unfold Sql.group_by_tab_name, Sql.where_user_id.
  set (events := filter (fun ev => ev_user_id ev = Some user_id) table).
  rewrite count_over_tabs by apply NoDup_remove_dups.
  rewrite filter_all; [reflexivity|].
  apply Forall_forall. intros ev Hin.
  apply elem_of_remove_dups, list_elem_of_fmap. by exists ev.
Qed.

Lemma run_user_clicks_nil (table : list ClickEvent) (user_id : string) :
  Sql.run_user_clicks table user_id = []
  <-> Forall (fun ev => ev_user_id ev <> Some user_id) table.
Proof.
  split.
  - intros Hnil. apply Forall_forall. intros ev Hin Huser.
    pose proof (SqlFacts.run_user_clicks_rows table user_id (ev_tab_name ev)
                  (Z.of_nat (length (filter (fun e => ev_user_id e = Some user_id
                                                     /\ ev_tab_name e = ev_tab_name ev)
                                            table)))) as Hrows.
    rewrite Hnil in Hrows. apply proj2 in Hrows.
    eapply not_elem_of_nil, Hrows. split; [reflexivity|].
    assert (Hev : ev ∈ filter (fun e => ev_user_id e = Some user_id
                                      /\ ev_tab_name e = ev_tab_name ev) table)
      by (apply list_elem_of_filter; auto).
    destruct (filter _ table); [by apply elem_of_nil in Hev | simpl; lia].
  - intros Hall. unfold Sql.run_user_clicks, Sql.where_user_id.
    by rewrite filter_none.
Qed.

Section UnknownUser.
Context {E : Type} `{Platform E}.

(** X18. A user without stored events is not an error.  The query then
    has no rows (and has rows as soon as the user has one event), and
    the handler answers 200 with the [user_id] and an empty
    [click_statistics] list. *)
Theorem unknown_user_gets_empty_statistics (table : list ClickEvent)
    (user_id : string) (s : ServerState E) :
  Forall (fun ev => ev_user_id ev <> Some user_id) table ->
  query_answers user_id (env s) (Sql.run_user_clicks table user_id) ->
  fst (get_user_clicks user_id s)
  = Returned (PDict (<[ "user_id" := PStr user_id ]>
                     {[ "click_statistics" := PList [] ]}), 200)
  /\ logs (snd (get_user_clicks user_id s)) = logs s.
Proof.
  intros Hnone (job & e1 & results & e2 & e3 & H1 & H2 & H3).
  apply run_user_clicks_nil in Hnone. rewrite Hnone in H3.
  rewrite get_user_clicks_cases. simpl. rewrite H1, H2, H3. auto.
Qed.

End UnknownUser.

(** Nobody has clicked yet. *)
Lemma unknown_user_gets_empty_statistics_witness :
  fst (get_user_clicks "u9" (Mem.start steady_clock sample_table None))
  = Returned (click_statistics_body "u9" [], 200).
Proof.
  refine (proj1 (unknown_user_gets_empty_statistics sample_table "u9"
                   (Mem.start steady_clock sample_table None) _ _)).
  - unfold sample_table. repeat constructor; discriminate.
  - do 5 eexists. repeat split; reflexivity.
Defined.
